(** * lhls_faker: a fake low-latency HLS origin (main.go)

    Shallow embedding of the two request handlers of [main.go]
    ([ServeManifest], [ServeSegment]), of the dispatcher [ServeHTTP] and of
    the routing table built by [main], followed by the properties of the
    live-window computation, of the segment gate and of the routes.

    Conventions of the embedding.
    - [float64] values are exact rationals ([Q]): sums, products, quotients
      and comparisons are the mathematical ones, without rounding, NaN or
      infinities.
    - [time.Time] is an instant in nanoseconds and [time.Duration] an [int64]
      count of nanoseconds; the wrap-around of [int64] is written out.
    - Reading the clock is an input: a handler receives the instants that
      its calls to [time.Since] and [time.Now] observe.
    - A playlist records the segments it holds, in order, and the capacity
      of its slice; the Go slice [p.Segments] is these segments followed by
      nil slots up to the capacity ([slots]).  The loops of the handlers
      range over the slots, and reading a field of a nil slot is a panic.
    - Strings are byte strings and URIs are compared as ASCII.
    - A response is described by what decides it: the status, the manifest
      before it is encoded, the file that is copied, the sleep and the rate
      limit, or the panic that ends the handler; headers and the CORS
      wrapper are left out.
    - A request is its path, taken to hold no escape sequence, so that
      [URL.Path], which the mux reads, and [URL.EscapedPath()], which the
      handler reads, are the same string. *)

From Stdlib Require Import ZArith QArith Qround Qminmax List String Ascii Bool Lia Lqa.
From Stdlib Require Import Permutation.
Import ListNotations.

Local Open Scope Z_scope.

(** ** Numbers *)

Module Float64.

Definition float64 := Q.

(** [x > y] and [x < y] on [float64]. *)
Definition gtb (x y : float64) : bool := negb (Qle_bool x y).
Definition ltb (x y : float64) : bool := gtb y x.

(** [math.Max]: [if x > y { return x }; return y]. *)
Definition Max (x y : float64) : float64 := if gtb x y then x else y.

(** Conversion [float64 -> int64]: the fraction is discarded
    (truncation toward zero). *)
Definition trunc (x : float64) : Z := Z.quot (Qnum x) (Zpos (Qden x)).

(** Conversion [int -> float64]. *)
Definition ofInt (n : Z) : float64 := inject_Z n.

End Float64.

Module Int.

(** Two's complement [int64]. *)
Definition int64 (z : Z) : Z := (z + 2 ^ 63) mod 2 ^ 64 - 2 ^ 63.

(** Conversion to [uint64]. *)
Definition uint64 (z : Z) : Z := z mod 2 ^ 64.

End Int.

(** ** Package time *)

Module Time.

Definition Time := Z.
Definition Duration := Z.

Definition Second : Duration := 1000000000.

(** [time.Since(t)], the clock reading [now]. *)
Definition Since (now t : Time) : Duration := now - t.

(** [d.Seconds()]: the duration as a floating-point number of seconds. *)
Definition Seconds (d : Duration) : Float64.float64 := Qmake d 1000000000.

(** [time.Duration(x)] for a [float64] [x]. *)
Definition ofFloat (x : Float64.float64) : Duration := Int.int64 (Float64.trunc x).

(** Product of two durations, an [int64] multiplication. *)
Definition mul (a b : Duration) : Duration := Int.int64 (a * b).

End Time.

(** ** Package strings (ASCII) *)

Module Strings.

Definition isUpper (c : ascii) : bool :=
  let n := nat_of_ascii c in (65 <=? n)%nat && (n <=? 90)%nat.

Definition toLower (c : ascii) : ascii :=
  if isUpper c then ascii_of_nat (nat_of_ascii c + 32) else c.

(** [strings.EqualFold], on ASCII strings: equality up to the case of the
    letters [A-Z]. *)
Fixpoint EqualFold (s t : string) : bool :=
  match s, t with
  | EmptyString, EmptyString => true
  | String a s', String b t' => Ascii.eqb (toLower a) (toLower b) && EqualFold s' t'
  | _, _ => false
  end.

(** [strings.HasPrefix(s, prefix)]. *)
Fixpoint HasPrefix (s prefix : string) {struct prefix} : bool :=
  match prefix, s with
  | EmptyString, _ => true
  | String a p', String b s' => Ascii.eqb a b && HasPrefix s' p'
  | String _ _, EmptyString => false
  end.

(** [s[n:]] for [n <= len(s)]. *)
Fixpoint drop (n : nat) (s : string) : string :=
  match n, s with
  | O, _ => s
  | S n', String _ s' => drop n' s'
  | S _, EmptyString => EmptyString
  end.

(** [strings.HasSuffix(s, suffix)]:
    [len(s) >= len(suffix) && s[len(s)-len(suffix):] == suffix]. *)
Definition HasSuffix (s suffix : string) : bool :=
  (String.length suffix <=? String.length s)%nat
  && String.eqb (drop (String.length s - String.length suffix) s) suffix.

End Strings.

(** ** Package m3u8 *)

Module M3U8.

(** The fields of [m3u8.MediaSegment] that the program reads. *)
Record MediaSegment := mkSegment {
  URI : string;
  Duration : Float64.float64
}.

(** [Segments] are the segments the playlist holds, in order; [capacity]
    is the length of the Go slice of that name. *)
Record MediaPlaylist := mkPlaylist {
  TargetDuration : Float64.float64;
  SeqNo : Z;
  Segments : list MediaSegment;
  winsize : nat;
  capacity : nat
}.

(** Modelled from the spec: the slice [p.Segments] of a playlist of the
    external package github.com/grafov/m3u8 (whose source is not part of the
    repository) from which no segment was removed: [capacity] pointers, the
    segments the playlist holds and then nil.  [main] guards against the nil
    slots ([segment != nil]). *)
Definition slots (p : MediaPlaylist) : list (option MediaSegment) :=
  map Some (Segments p) ++ repeat None (capacity p - List.length (Segments p)).

Definition setSeqNo (n : Z) (p : MediaPlaylist) : MediaPlaylist :=
  mkPlaylist (TargetDuration p) n (Segments p) (winsize p) (capacity p).

(** Modelled from the spec: [m3u8.NewMediaPlaylist(winsize, capacity)] is a
    function of the external package github.com/grafov/m3u8, whose source is
    not part of the repository; the model is the contract [ServeManifest]
    relies on.  It allocates an empty playlist that holds at most [capacity]
    segments and fails when the window is larger than the capacity. *)
Definition NewMediaPlaylist (winsize capacity : nat) : option MediaPlaylist :=
  if (capacity <? winsize)%nat then None
  else Some (mkPlaylist 0%Q 0 [] winsize capacity).

(** Modelled from the spec: [p.AppendSegment(seg)] of the same package,
    absent from the sources as well.  It fails with [ErrPlaylistFull] (here
    [false]), leaving the playlist as it is, when the playlist already holds
    [capacity] segments; otherwise the segment goes to the tail, and the
    target duration is raised to the ceiling of the segment's duration when
    that is longer. *)
Definition AppendSegment (p : MediaPlaylist) (seg : MediaSegment)
  : MediaPlaylist * bool :=
  if (capacity p <=? List.length (Segments p))%nat then (p, false)
  else
    (mkPlaylist
       (if Float64.ltb (TargetDuration p) (Duration seg)
        then inject_Z (Qceiling (Duration seg)) else TargetDuration p)
       (SeqNo p) (Segments p ++ [seg]) (winsize p) (capacity p),
     true).

End M3U8.

Import M3U8.

(** ** The handler *)

(** How much time to project into the future. *)
Definition futureTime : Float64.float64 := 5%Q.

Record FakeLHLSManifestHandler := mkHandler {
  startTime : Time.Time;
  duration : Float64.float64;
  playlist : MediaPlaylist;
  baseDir : string
}.

Definition setStartTime (t : Time.Time) (l : FakeLHLSManifestHandler) :=
  mkHandler t (duration l) (playlist l) (baseDir l).

(** An open file: the size that [Stat] reports ([None] when [Stat] fails)
    and the bytes. *)
Record File := mkFile {
  statSize : option Z;
  bytes : list Byte.byte
}.

(** What [ServeSegment] does on success: the argument of [time.Sleep] when
    the gate is taken, the two numbers it logs and passes to the shaper, and
    the file it copies to the client. *)
Record Delivery := mkDelivery {
  slept : option Time.Duration;
  rateDuration : Float64.float64;
  rateLimit : Float64.float64;
  payload : File
}.

Inductive Response :=
| NotFound                                   (* http.NotFound, 404 *)
| InternalServerError (body : string)        (* 500 *)
| ManifestOK (body : MediaPlaylist)          (* 200, application/x-mpegURL *)
| SegmentOK (d : Delivery)                   (* 200, video/MP2T *)
| FileOK (f : File)                          (* http.FileServer *)
| MovedPermanently (location : string)       (* 301 *)
| Panic.                                     (* the handler panics: no answer *)

(** The state of the loop of [ServeManifest]. *)
Record Window := mkWindow {
  curDuration : Float64.float64;
  sequence : Z;
  curPlaylist : MediaPlaylist
}.

(** One iteration of [for i, segment := range l.playlist.Segments],
    up to the test of [break]. *)
Definition windowStep (td curStreamTime : Float64.float64) (i : Z)
  (segment : MediaSegment) (w : Window) : Window :=
  let curDuration' := (curDuration w + Duration segment)%Q in
  if Float64.gtb (curDuration' + 3 * td)%Q curStreamTime
  then mkWindow curDuration'
         (if sequence w =? -1 then i else sequence w)
         (fst (AppendSegment (curPlaylist w) segment))
  else mkWindow curDuration' (sequence w) (curPlaylist w).

(** The loop over the slots of [l.playlist.Segments]; [None] is the panic
    of [segment.Duration] on a nil slot. *)
Fixpoint windowLoop (td curStreamTime : Float64.float64) (i : Z)
  (segs : list (option MediaSegment)) (w : Window) : option Window :=
  match segs with
  | [] => Some w
  | None :: _ => None
  | Some segment :: rest =>
      let w' := windowStep td curStreamTime i segment w in
      if Float64.gtb (curDuration w') (curStreamTime + futureTime)%Q
      then Some w'
      else windowLoop td curStreamTime (i + 1) rest w'
  end.

(** The loop of [ServeSegment] over the slots: the first segment whose URI
    matches ([nil] when the loop ends without a match) and the value of
    [segmentStartTime] when the loop ends; [None] is the panic of
    [curSegment.URI] on a nil slot. *)
Fixpoint findSegment (segs : list (option MediaSegment)) (curSegmentURL : string)
  (segmentStartTime : Float64.float64)
  : option (option MediaSegment * Float64.float64) :=
  match segs with
  | [] => Some (None, segmentStartTime)
  | None :: _ => None
  | Some curSegment :: rest =>
      if Strings.EqualFold (URI curSegment) curSegmentURL
      then Some (Some curSegment, segmentStartTime)
      else findSegment rest curSegmentURL (segmentStartTime + Duration curSegment)%Q
  end.

(** The gate of [ServeSegment]: the sleep it asks for and the stream time it
    goes on with. *)
Definition gate (segmentStartTime curStreamTime : Float64.float64)
  : option Time.Duration * Float64.float64 :=
  if Float64.gtb segmentStartTime curStreamTime
  then
    let sleepDuration := (segmentStartTime - curStreamTime)%Q in
    (Some (Time.mul (Time.ofFloat sleepDuration) Time.Second), segmentStartTime)
  else (None, curStreamTime).

Section Server.

(** The operating system: [path.Join] and [os.Open]; [cleanPath] of
    net/http. *)
Variable path_Join : string -> string -> string.
Variable os_Open : string -> option File.
Variable cleanPath : string -> string.

Definition ServeSegment (l : FakeLHLSManifestHandler) (escapedPath : string)
  (now : Time.Time) : Response :=
  if (String.length escapedPath <? 6)%nat then Panic else
  let curSegmentURL := Strings.drop 6 escapedPath in
  let curFilePath := path_Join (baseDir l) curSegmentURL in
  match os_Open curFilePath with
  | None => NotFound
  | Some file =>
    match statSize file with
    | None => NotFound
    | Some size =>
      match findSegment (slots (playlist l)) curSegmentURL 0%Q with
      | None => Panic
      | Some (None, _) => NotFound
      | Some (Some segment, segmentStartTime) =>
          let '(sleep, curStreamTime) :=
            gate segmentStartTime (Time.Seconds (Time.Since now (startTime l))) in
          let rateDuration :=
            Float64.Max (segmentStartTime + Duration segment - curStreamTime)%Q 1%Q in
          let rateLimit := (Float64.ofInt size / rateDuration)%Q in
          SegmentOK (mkDelivery sleep rateDuration rateLimit file)
      end
    end
  end.

(** [ServeManifest]; [now] is the instant [time.Since] observes and [now']
    the one [time.Now] observes when the stream is reset.  The reset is
    written before the loop, so it stays when the loop panics. *)
Definition ServeManifest (l : FakeLHLSManifestHandler) (now now' : Time.Time)
  : FakeLHLSManifestHandler * Response :=
  let curStreamTime := Time.Seconds (Time.Since now (startTime l)) in
  match NewMediaPlaylist 10 10 with
  | None => (l, InternalServerError "oops")
  | Some fresh =>
      let '(curStreamTime, l) :=
        if Float64.ltb (duration l) curStreamTime
        then (0%Q, setStartTime now' l)
        else (curStreamTime, l) in
      match windowLoop (TargetDuration (playlist l)) curStreamTime 0
              (slots (playlist l)) (mkWindow 0%Q (-1) fresh) with
      | None => (l, Panic)
      | Some w => (l, ManifestOK (setSeqNo (Int.uint64 (sequence w)) (curPlaylist w)))
      end
  end.

Definition ServeHTTP (l : FakeLHLSManifestHandler) (escapedPath : string)
  (now now' : Time.Time) : FakeLHLSManifestHandler * Response :=
  if Strings.HasSuffix escapedPath "manifest.m3u8" then ServeManifest l now now'
  else if Strings.HasPrefix escapedPath "/lhls/" then (l, ServeSegment l escapedPath now)
  else (l, NotFound).

(** [http.FileServer(http.Dir(root))] on a path relative to [root]: the
    file as it is stored, or 404. *)
Definition FileServer (root : string) (p : string) : Response :=
  match os_Open (path_Join root p) with
  | Some f => FileOK f
  | None => NotFound
  end.

(** [http.StripPrefix(prefix, h)]. *)
Definition StripPrefix (prefix : string) (h : string -> Response) (p : string)
  : Response :=
  if Strings.HasPrefix p prefix then h (Strings.drop (String.length prefix) p)
  else NotFound.

(** The handlers in the mux: the two that [main] registers, and the
    redirection that [mux.Handle] adds for a tree. *)
Inductive Handler :=
| lhlsHandler
| liveFiles
| redirectTo (url : string).

Definition endsInSlash (pattern : string) : bool :=
  Strings.HasSuffix pattern "/".

(** [mux.Handle(pattern, h)]: the entry for the pattern and, when the
    pattern is a tree [/tree/], a permanent redirection of [/tree] to it.
    ([Handle] panics on a pattern registered twice, and an explicit entry
    for [/tree] would take the place of the redirection; neither occurs
    with the patterns of [main].) *)
Definition Handle (m : list (string * Handler)) (pattern : string) (h : Handler)
  : list (string * Handler) :=
  if endsInSlash pattern
  then m ++ [ (pattern, h);
              (String.substring 0 (String.length pattern - 1) pattern,
               redirectTo pattern) ]
  else m ++ [ (pattern, h) ].

(** The routing table of [main], built by its four calls to [mux.Handle]. *)
Definition routes : list (string * Handler) :=
  Eval cbv in
    Handle (Handle (Handle (Handle [] "/live/manifest.m3u8" lhlsHandler)
                      "/live/" liveFiles)
              "/lhls/manifest.m3u8" lhlsHandler)
      "/lhls/" lhlsHandler.

(** [pathMatch] of [http.ServeMux]: a pattern that ends in a slash matches
    the paths it is a prefix of, another pattern matches itself. *)

Definition pathMatch (pattern p : string) : bool :=
  if (String.length pattern =? 0)%nat then false
  else if endsInSlash pattern then Strings.HasPrefix p pattern
  else String.eqb pattern p.

(** [ServeMux.match]: among the patterns that match, the longest. *)
Fixpoint muxMatch (m : list (string * Handler)) (p : string)
  (best : option (nat * Handler)) : option Handler :=
  match m with
  | [] => option_map snd best
  | (k, v) :: rest =>
      if pathMatch k p then
        match best with
        | Some (n, _) =>
            if (n <? String.length k)%nat
            then muxMatch rest p (Some (String.length k, v))
            else muxMatch rest p best
        | None => muxMatch rest p (Some (String.length k, v))
        end
      else muxMatch rest p best
  end.

(** [ServeMux.handler] on a path that is clean: the handler of the longest
    pattern that matches answers, and no pattern is 404. *)
Definition serve (l : FakeLHLSManifestHandler) (escapedPath : string)
  (now now' : Time.Time) : FakeLHLSManifestHandler * Response :=
  match muxMatch routes escapedPath None with
  | Some lhlsHandler => ServeHTTP l escapedPath now now'
  | Some liveFiles =>
      (l, StripPrefix "/live/" (FileServer (baseDir l)) escapedPath)
  | Some (redirectTo url) => (l, MovedPermanently url)
  | None => (l, NotFound)
  end.

(** [ServeMux.ServeHTTP], the server [main] starts: a path that is not clean
    is redirected to its clean form, a clean one goes to [serve]. *)
Definition ServeMux_ServeHTTP (l : FakeLHLSManifestHandler) (path : string)
  (now now' : Time.Time) : FakeLHLSManifestHandler * Response :=
  if String.eqb (cleanPath path) path then serve l path now now'
  else (l, MovedPermanently (cleanPath path)).

End Server.

(** The sum of the durations of a list of segments. *)
Definition totalDuration (segs : list MediaSegment) : Float64.float64 :=
  fold_left (fun d segment => (d + Duration segment)%Q) segs 0%Q.

(** [duration] as [main] computes it, over the slots of the slice:
    [if segment != nil { duration += segment.Duration }]. *)
Definition sumDurations (segs : list (option MediaSegment)) : Float64.float64 :=
  fold_left (fun d segment =>
               match segment with
               | Some segment => (d + Duration segment)%Q
               | None => d
               end) segs 0%Q.

(** The handler [main] builds at the instant [now] for the playlist [mediapl]
    read from a file of the directory [dir]. *)
Definition newHandler (mediapl : MediaPlaylist) (dir : string) (now : Time.Time)
  : FakeLHLSManifestHandler :=
  mkHandler now (sumDurations (slots mediapl)) mediapl dir.

(** ** The specification's Window Calculator

    The window in the words of the specification: walk the segments in
    order, accumulating [cursor += segment.duration]; a segment is included
    if, when it is visited, [cursor + 3 * targetDuration > elapsed];
    inclusion stops as soon as [cursor > elapsed + futureHorizon]; the
    sequence number is the index of the first included segment. *)

Module Spec.

Definition futureHorizon : Q := 5%Q.

Fixpoint window (targetDuration elapsed cursor : Q) (segs : list MediaSegment)
  : list MediaSegment :=
  match segs with
  | [] => []
  | seg :: rest =>
      let cursor' := (cursor + Duration seg)%Q in
      let later :=
        if Float64.gtb cursor' (elapsed + futureHorizon)%Q then []
        else window targetDuration elapsed cursor' rest in
      if Float64.gtb (cursor' + 3 * targetDuration)%Q elapsed
      then seg :: later else later
  end.

Fixpoint firstIncluded (targetDuration elapsed cursor : Q) (i : Z)
  (segs : list MediaSegment) : option Z :=
  match segs with
  | [] => None
  | seg :: rest =>
      let cursor' := (cursor + Duration seg)%Q in
      if Float64.gtb (cursor' + 3 * targetDuration)%Q elapsed then Some i
      else if Float64.gtb cursor' (elapsed + futureHorizon)%Q then None
      else firstIncluded targetDuration elapsed cursor' (i + 1) rest
  end.

(** Sum of the durations of [segs], from [cursor]. *)
Definition advance (cursor : Q) (segs : list MediaSegment) : Q :=
  fold_left (fun d seg => (d + Duration seg)%Q) segs cursor.

(** Nominal start offset of the segment of index [k]: the sum of the
    durations of the segments before it. *)
Definition startOffset (segs : list MediaSegment) (k : nat) : Q :=
  advance 0%Q (firstn k segs).

(** The cursor once the segment of index [k] is visited. *)
Definition cursorAt (segs : list MediaSegment) (k : nat) : Q :=
  advance 0%Q (firstn (S k) segs).

(** Index of the first segment whose URI matches [uri] up to letter case. *)
Fixpoint firstMatch (uri : string) (segs : list MediaSegment) : option nat :=
  match segs with
  | [] => None
  | seg :: rest =>
      if Strings.EqualFold (URI seg) uri then Some O
      else option_map S (firstMatch uri rest)
  end.

End Spec.

(** The playlist [ServeManifest] starts from, and the window it computes for
    a stream time. *)
Definition emptyPlaylist : MediaPlaylist := mkPlaylist 0%Q 0 [] 10 10.

Definition windowAt (pl : MediaPlaylist) (curStreamTime : Float64.float64)
  : option Window :=
  windowLoop (TargetDuration pl) curStreamTime 0 (slots pl)
    (mkWindow 0%Q (-1) emptyPlaylist).

Definition manifestAt (pl : MediaPlaylist) (curStreamTime : Float64.float64)
  : option MediaPlaylist :=
  option_map (fun w => setSeqNo (Int.uint64 (sequence w)) (curPlaylist w))
    (windowAt pl curStreamTime).

(** The answer of [ServeManifest] for a stream time: the manifest, or the
    panic of the loop. *)
Definition answerAt (pl : MediaPlaylist) (curStreamTime : Float64.float64)
  : Response :=
  match manifestAt pl curStreamTime with
  | Some body => ManifestOK body
  | None => Panic
  end.

(** The number of nil slots of the slice. *)
Definition nilSlots (pl : MediaPlaylist) : nat :=
  capacity pl - List.length (Segments pl).

(** The walk over [segs] from [cursor] never meets the test of [break]: no
    cursor exceeds [elapsed + futureTime]. *)
Fixpoint runsOut (elapsed cursor : Q) (segs : list MediaSegment) : bool :=
  match segs with
  | [] => true
  | seg :: rest =>
      if Float64.gtb (cursor + Duration seg)%Q (elapsed + futureTime)%Q then false
      else runsOut elapsed (cursor + Duration seg)%Q rest
  end.

(** All the durations are positive. *)
Definition positive (segs : list MediaSegment) : Prop :=
  Forall (fun seg => (0 < Duration seg)%Q) segs.

(** The stream time [ServeManifest] computes the window for: the time since
    [startTime], or zero when the stream is reset. *)
Definition manifestStreamTime (l : FakeLHLSManifestHandler) (now : Time.Time)
  : Float64.float64 :=
  let curStreamTime := Time.Seconds (Time.Since now (startTime l)) in
  if Float64.ltb (duration l) curStreamTime then 0%Q else curStreamTime.

(** The lower-case form of an ASCII string. *)
Fixpoint lowercase (s : string) : string :=
  match s with
  | EmptyString => EmptyString
  | String a s' => String (Strings.toLower a) (lowercase s')
  end.

(** ** The start of the program *)

(** What [m3u8.DecodeFrom] returns when it succeeds: a playlist and its
    type. *)
Inductive Decoded :=
| MASTER
| MEDIA (mediapl : MediaPlaylist).

(** The lines [main] prints. *)
Inductive Line :=
| Usage
| FailedToOpenInput
| FailedToDecode
| OnlyMediaPlaylists
| Segmentdir (dir : string)
| DurationIs (d : Float64.float64).

(** How [main] ends: with the panic of [args[0]] on an empty slice, by
    returning, or in [http.ListenAndServe] with its handler behind the
    mux. *)
Inductive Startup :=
| IndexOutOfRange (out : list Line)
| Return (out : list Line)
| ListenAndServe (out : list Line) (lhlsHandler : FakeLHLSManifestHandler).

Section Main.

(** [path.Dir], [filepath.Dir], [os.Open] and [m3u8.DecodeFrom] in strict
    mode ([None] is an error). *)
Variable path_Dir : string -> string.
Variable filepath_Dir : string -> string.
Variable os_Open : string -> option File.
Variable DecodeFrom : File -> option Decoded.

(** [main] on the arguments [flag.Args()], the clock reading [now] when the
    handler is built. *)
Definition main (args : list string) (now : Time.Time) : Startup :=
  let out := if (List.length args =? 1)%nat then [] else [Usage] in
  match args with
  | [] => IndexOutOfRange out
  | arg0 :: _ =>
      match os_Open arg0 with
      | None => Return (out ++ [FailedToOpenInput])
      | Some f =>
          match DecodeFrom f with
          | None => Return (out ++ [FailedToDecode])
          | Some MASTER => Return (out ++ [OnlyMediaPlaylists])
          | Some (MEDIA mediapl) =>
              let l := newHandler mediapl (path_Dir arg0) now in
              ListenAndServe
                (out ++ [Segmentdir (filepath_Dir arg0); DurationIs (duration l)]) l
          end
      end
  end.

End Main.

(** [bestOf m p n h]: the pattern of [h] is a longest pattern of [m] that
    matches [p], and its length is [n]. *)
Definition bestOf (m : list (string * Handler)) (p : string) (n : nat) (h : Handler)
  : Prop :=
  (exists k, In (k, h) m /\ pathMatch k p = true /\ String.length k = n)
  /\ forall k' h', In (k', h') m -> pathMatch k' p = true ->
                   (String.length k' <= n)%nat.

(** ** Concrete playlists *)

Module Examples.

Definition segs3 : list MediaSegment :=
  [ mkSegment "seg000.ts" 10%Q; mkSegment "seg001.ts" 10%Q;
    mkSegment "seg002.ts" 10%Q ].

(** Three segments of ten seconds, target duration ten seconds. *)
Definition playlist3 : MediaPlaylist := mkPlaylist 10%Q 0 segs3 8 1024.

Definition join (dir file : string) : string := (dir ++ "/" ++ file)%string.

(** A directory that holds the three segment files, 1000 bytes each, and
    a copy of the second one under an upper-case name. *)
Definition files (name : string) : option File :=
  if existsb (String.eqb name)
       [ "media/seg000.ts"; "media/seg001.ts"; "media/seg002.ts";
         "media/SEG001.ts" ]%string
  then Some (mkFile (Some 1000) []) else None.

Definition handler3 : FakeLHLSManifestHandler := newHandler playlist3 "media" 0.

(** The directory as it is stored: the three segment files and the
    playlist file. *)
Definition storedFiles (name : string) : option File :=
  if existsb (String.eqb name)
       [ "media/seg000.ts"; "media/seg001.ts"; "media/seg002.ts";
         "media/list.m3u8" ]%string
  then Some (mkFile (Some 1000) []) else None.

(** Twelve segments of one second, target duration ten seconds. *)
Definition segs12 : list MediaSegment :=
  map (fun u => mkSegment u 1%Q)
    [ "s00.ts"; "s01.ts"; "s02.ts"; "s03.ts"; "s04.ts"; "s05.ts";
      "s06.ts"; "s07.ts"; "s08.ts"; "s09.ts"; "s10.ts"; "s11.ts" ]%string.

Definition playlist12 : MediaPlaylist := mkPlaylist 10%Q 0 segs12 8 1024.

(** The three segments with a target duration of one second. *)
Definition playlist3short : MediaPlaylist := mkPlaylist 1%Q 0 segs3 8 1024.

(** Two segments of ten seconds with a negative target duration. *)
Definition playlistNeg : MediaPlaylist :=
  mkPlaylist (-2)%Q 0
    [ mkSegment "a.ts" 10%Q; mkSegment "b.ts" 10%Q ] 8 1024.

End Examples.

(** * Lemmas *)

(** ** Comparisons *)

Lemma gtb_true (x y : Q) : Float64.gtb x y = true <-> (y < x)%Q.
Proof.
  unfold Float64.gtb. rewrite negb_true_iff.
  split; intro H.
  - apply Qnot_le_lt. intro L. apply Qle_bool_iff in L. congruence.
  - destruct (Qle_bool x y) eqn:E; [|reflexivity].
    apply Qle_bool_iff in E. apply Qle_not_lt in E. contradiction.
Qed.

Lemma gtb_false (x y : Q) : Float64.gtb x y = false <-> (x <= y)%Q.
Proof.
  unfold Float64.gtb. rewrite negb_false_iff. apply Qle_bool_iff.
Qed.

Lemma ltb_true (x y : Q) : Float64.ltb x y = true <-> (x < y)%Q.
Proof. unfold Float64.ltb. apply gtb_true. Qed.

Lemma ltb_false (x y : Q) : Float64.ltb x y = false <-> (y <= x)%Q.
Proof. unfold Float64.ltb. apply gtb_false. Qed.

(** Case analysis on a comparison, with the order fact in the context. *)
Ltac cmp x y :=
  let E := fresh "E" in
  destruct (Float64.gtb x y) eqn:E;
  [ pose proof (proj1 (gtb_true x y) E) | pose proof (proj1 (gtb_false x y) E) ].

Lemma Max_Qmax (x y : Q) : (Float64.Max x y == Qmax x y)%Q.
Proof.
  unfold Float64.Max. cmp x y.
  - symmetry. apply Q.max_l. apply Qlt_le_weak. assumption.
  - symmetry. apply Q.max_r. assumption.
Qed.

Lemma Max_ge_r (x y : Q) : (y <= Float64.Max x y)%Q.
Proof. unfold Float64.Max. cmp x y; lra. Qed.

(** ** The bounded playlist *)

Lemma firstn_firstn_app {A} (n : nat) (l b : list A) :
  firstn n (firstn n l ++ b) = firstn n (l ++ b).
Proof.
  destruct (Nat.le_gt_cases (List.length l) n) as [L | L].
  - rewrite (@firstn_all2 _ n l) by exact L. reflexivity.
  - rewrite (firstn_app n (firstn n l)), (firstn_app n l).
    rewrite firstn_firstn, Nat.min_id.
    rewrite length_firstn, Nat.min_l by lia.
    replace (n - n)%nat with 0%nat by lia.
    replace (n - List.length l)%nat with 0%nat by lia.
    reflexivity.
Qed.

Lemma AppendSegment_capacity (p : MediaPlaylist) (seg : MediaSegment) :
  capacity (fst (AppendSegment p seg)) = capacity p.
Proof.
  unfold AppendSegment. destruct (capacity p <=? _)%nat; reflexivity.
Qed.

Lemma AppendSegment_Segments (p : MediaPlaylist) (seg : MediaSegment) :
  (List.length (Segments p) <= capacity p)%nat ->
  Segments (fst (AppendSegment p seg)) = firstn (capacity p) (Segments p ++ [seg]).
Proof.
  intro L. unfold AppendSegment.
  destruct (capacity p <=? List.length (Segments p))%nat eqn:E; simpl.
  - apply Nat.leb_le in E.
    rewrite firstn_app.
    replace (capacity p - List.length (Segments p))%nat with 0%nat by lia.
    rewrite firstn_all2 by lia. simpl. now rewrite app_nil_r.
  - apply Nat.leb_gt in E.
    rewrite firstn_all2; [reflexivity|].
    rewrite length_app. simpl. lia.
Qed.

Lemma AppendSegment_length (p : MediaPlaylist) (seg : MediaSegment) :
  (List.length (Segments p) <= capacity p)%nat ->
  (List.length (Segments (fst (AppendSegment p seg))) <= capacity p)%nat.
Proof.
  intro L. rewrite AppendSegment_Segments by exact L.
  rewrite length_firstn. lia.
Qed.

(** ** The loop of [ServeManifest] against the specification's window *)

Section Loop.

Variables td t : Float64.float64.

(** The loop on nil slots alone: it ends at once without a slot and panics
    on the first one. *)
Lemma windowLoop_nil (n : nat) i w w' :
  windowLoop td t i (repeat None n) w = Some w' -> n = 0%nat /\ w' = w.
Proof.
  destruct n; simpl; intro H; [injection H as <-; auto | discriminate].
Qed.

Lemma windowLoop_capacity segs n : forall i w w',
  windowLoop td t i (map Some segs ++ repeat None n) w = Some w' ->
  capacity (curPlaylist w') = capacity (curPlaylist w).
Proof.
  induction segs as [|seg rest IH]; intros i w w'; simpl.
  - intro H. apply windowLoop_nil in H. destruct H as [_ ->]. reflexivity.
  - assert (C : capacity (curPlaylist (windowStep td t i seg w))
                = capacity (curPlaylist w)).
    { unfold windowStep. destruct (Float64.gtb _ t); simpl;
        [apply AppendSegment_capacity | reflexivity]. }
    destruct (Float64.gtb _ _).
    + intro H. injection H as <-. exact C.
    + intro H. apply IH in H. rewrite H. exact C.
Qed.

(** The segments the loop leaves in [curPlaylist] when it does not panic:
    those already there, then the specification's window, cut at the
    capacity. *)
Lemma windowLoop_Segments segs n : forall i w w',
  windowLoop td t i (map Some segs ++ repeat None n) w = Some w' ->
  (List.length (Segments (curPlaylist w)) <= capacity (curPlaylist w))%nat ->
  Segments (curPlaylist w')
  = firstn (capacity (curPlaylist w))
      (Segments (curPlaylist w) ++ Spec.window td t (curDuration w) segs).
Proof.
  induction segs as [|seg rest IH]; intros i w w'; simpl.
  - intros H L. apply windowLoop_nil in H. destruct H as [_ ->].
    rewrite app_nil_r, firstn_all2 by exact L. reflexivity.
  - unfold windowStep, Spec.futureHorizon, futureTime.
    set (c' := (curDuration w + Duration seg)%Q).
    destruct (Float64.gtb (c' + 3 * td)%Q t) eqn:Q1; simpl;
      destruct (Float64.gtb c' (t + 5)%Q) eqn:Q2; simpl; intros H L.
    + injection H as <-. simpl. apply AppendSegment_Segments; exact L.
    + rewrite (IH _ _ _ H); simpl.
      * rewrite AppendSegment_capacity, AppendSegment_Segments by exact L.
        rewrite firstn_firstn_app, <- app_assoc. reflexivity.
      * rewrite AppendSegment_capacity. apply AppendSegment_length; exact L.
    + injection H as <-. simpl.
      rewrite app_nil_r, firstn_all2 by exact L. reflexivity.
    + rewrite (IH _ _ _ H) by exact L. reflexivity.
Qed.

(** The sequence number the loop computes: the index of the first included
    segment, or the value it started from when it had one. *)
Lemma windowLoop_sequence segs n : forall i w w',
  windowLoop td t i (map Some segs ++ repeat None n) w = Some w' ->
  0 <= i ->
  sequence w'
  = if sequence w =? -1
    then match Spec.firstIncluded td t (curDuration w) i segs with
         | Some k => k
         | None => -1
         end
    else sequence w.
Proof.
  induction segs as [|seg rest IH]; intros i w w'; simpl.
  - intros H Hi. apply windowLoop_nil in H. destruct H as [_ ->].
    destruct (sequence w =? -1) eqn:E; [apply Z.eqb_eq in E; congruence | reflexivity].
  - unfold windowStep, Spec.futureHorizon, futureTime.
    set (c' := (curDuration w + Duration seg)%Q).
    destruct (Float64.gtb (c' + 3 * td)%Q t) eqn:Q1; simpl;
      destruct (Float64.gtb c' (t + 5)%Q) eqn:Q2; simpl; intros H Hi.
    + injection H as <-. reflexivity.
    + rewrite (IH _ _ _ H) by lia. simpl.
      destruct (sequence w =? -1) eqn:E; [|rewrite E; reflexivity].
      destruct (i =? -1) eqn:E'; [apply Z.eqb_eq in E'; lia | reflexivity].
    + injection H as <-. simpl.
      destruct (sequence w =? -1) eqn:E; [apply Z.eqb_eq in E; congruence | reflexivity].
    + rewrite (IH _ _ _ H) by lia. reflexivity.
Qed.

(** The loop panics exactly when it reaches the end of the segments without
    a break and a nil slot follows. *)
Lemma windowLoop_None segs n : forall i w,
  windowLoop td t i (map Some segs ++ repeat None n) w = None
  <-> runsOut t (curDuration w) segs = true /\ n <> 0%nat.
Proof.
  induction segs as [|seg rest IH]; intros i w; simpl.
  - destruct n; simpl.
    + split; [discriminate | intros [_ H]; congruence].
    + split; [intros _; split; [reflexivity | discriminate] | reflexivity].
  - assert (C : curDuration (windowStep td t i seg w)
                = (curDuration w + Duration seg)%Q).
    { unfold windowStep. destruct (Float64.gtb _ t); reflexivity. }
    rewrite C. destruct (Float64.gtb _ _).
    + split; [discriminate | intros [H _]; discriminate].
    + rewrite IH, C. tauto.
Qed.

Lemma firstIncluded_ge segs : forall c i k,
  Spec.firstIncluded td t c i segs = Some k -> i <= k.
Proof.
  induction segs as [|seg rest IH]; intros c i k; simpl; [discriminate|].
  destruct (Float64.gtb _ t); [intro H; injection H; lia|].
  destruct (Float64.gtb _ _); [discriminate|].
  intro H. apply IH in H. lia.
Qed.

(** No segment is included exactly when the window is empty. *)
Lemma firstIncluded_None segs : forall c i,
  Spec.firstIncluded td t c i segs = None <-> Spec.window td t c segs = [].
Proof.
  induction segs as [|seg rest IH]; intros c i; simpl; [tauto|].
  destruct (Float64.gtb (_ + 3 * td)%Q t).
  - split; discriminate.
  - destruct (Float64.gtb _ _); [tauto | apply IH].
Qed.

End Loop.

(** ** The window is a contiguous run *)

Lemma advance_cons c seg rest :
  Spec.advance c (seg :: rest) = Spec.advance (c + Duration seg)%Q rest.
Proof. reflexivity. Qed.

Lemma advance_le segs : forall c, positive segs -> (c <= Spec.advance c segs)%Q.
Proof.
  induction segs as [|seg rest IH]; intros c P.
  - simpl. lra.
  - rewrite advance_cons. inversion P; subst.
    specialize (IH (c + Duration seg)%Q H2). lra.
Qed.

Lemma positive_firstn segs : forall k, positive segs -> positive (firstn k segs).
Proof.
  induction segs as [|seg rest IH]; intros [|k] P; simpl; try constructor.
  - inversion P; assumption.
  - apply IH. inversion P; assumption.
Qed.

Lemma advance_firstn_le segs c k :
  positive segs -> (c <= Spec.advance c (firstn k segs))%Q.
Proof. intro P. apply advance_le, positive_firstn, P. Qed.

Section Run.

Variables td t : Float64.float64.

(** From the cursor [c], the window over [segs] is [segs] without its first
    [s] segments, cut after [v] segments: [v] segments are visited, the
    first [s] of them fail the inclusion test and the others pass it. *)
Lemma window_run segs : forall c, positive segs ->
  exists v s, (s <= v <= List.length segs)%nat
    /\ Spec.window td t c segs = skipn s (firstn v segs)
    /\ (forall k, (k < s)%nat ->
          (Spec.advance c (firstn (S k) segs) + 3 * td <= t)%Q)
    /\ (forall k, (s <= k < v)%nat ->
          (t < Spec.advance c (firstn (S k) segs) + 3 * td)%Q)
    /\ (forall k, (S k < v)%nat ->
          (Spec.advance c (firstn (S k) segs) <= t + 5)%Q)
    /\ ((v < List.length segs)%nat ->
          exists k, v = S k /\ (t + 5 < Spec.advance c (firstn (S k) segs))%Q).
Proof.
  induction segs as [|seg rest IH]; intros c P.
  - exists 0%nat, 0%nat. simpl. repeat split; try lia; intros; lia.
  - inversion P as [|? ? Pseg Prest]; subst.
    destruct (IH (c + Duration seg)%Q Prest)
      as (v' & s' & Hle & Hw & Hskip & Hin & Hvis & Hbrk).
    simpl Spec.window. unfold Spec.futureHorizon.
    cmp (c + Duration seg)%Q (t + 5)%Q; cmp (c + Duration seg + 3 * td)%Q t.
    + (* included, then break *)
      exists 1%nat, 0%nat. simpl. repeat split; try lia.
      * intros k Hk. assert (k = 0)%nat by lia. subst. simpl. lra.
      * intros _. exists 0%nat. simpl. split; [reflexivity | lra].
    + (* not included, then break *)
      exists 1%nat, 1%nat. simpl. repeat split; try lia.
      * intros k Hk. assert (k = 0)%nat by lia. subst. simpl. lra.
      * intros _. exists 0%nat. simpl. split; [reflexivity | lra].
    + (* included, the loop goes on: everything visited later is included *)
      assert (s' = 0)%nat as ->.
      { destruct s' as [|s']; [reflexivity | exfalso].
        specialize (Hskip 0%nat ltac:(lia)).
        pose proof (advance_firstn_le rest (c + Duration seg)%Q 1 Prest). lra. }
      exists (S v'), 0%nat. simpl in *. repeat split; try lia.
      * rewrite Hw. reflexivity.
      * intros [|k] Hk; simpl; [lra | apply Hin; lia].
      * intros [|k] Hk; simpl; [lra | apply Hvis; lia].
      * intros Hv. destruct Hbrk as (k & -> & Hk); [lia|].
        exists (S k). split; [reflexivity | exact Hk].
    + (* not included, the loop goes on *)
      exists (S v'), (S s'). simpl. repeat split; try lia.
      * exact Hw.
      * intros [|k] Hk; simpl; [lra | apply Hskip; lia].
      * intros [|k] Hk; simpl; [lia | apply Hin; lia].
      * intros [|k] Hk; simpl; [lra | apply Hvis; lia].
      * intros Hv. destruct Hbrk as (k & -> & Hk); [lia|].
        exists (S k). split; [reflexivity | exact Hk].
Qed.

End Run.

(** ** [ServeManifest] *)

Lemma ServeManifest_unfold l now now' :
  ServeManifest l now now'
  = (if Float64.ltb (duration l) (Time.Seconds (Time.Since now (startTime l)))
     then setStartTime now' l else l,
     answerAt (playlist l) (manifestStreamTime l now)).
Proof.
  unfold ServeManifest, manifestStreamTime, answerAt, manifestAt, windowAt.
  cbn [NewMediaPlaylist Nat.ltb Nat.leb]. fold emptyPlaylist.
  destruct (Float64.ltb _ _); cbn [playlist setStartTime];
    destruct (windowLoop _ _ _ _ _); reflexivity.
Qed.

Lemma windowAt_Segments pl t w :
  windowAt pl t = Some w ->
  Segments (curPlaylist w)
  = firstn 10 (Spec.window (TargetDuration pl) t 0 (Segments pl)).
Proof.
  unfold windowAt, slots. intro H.
  rewrite (windowLoop_Segments _ _ _ _ _ _ _ H) by (simpl; lia). reflexivity.
Qed.

Lemma windowAt_sequence pl t w :
  windowAt pl t = Some w ->
  sequence w
  = match Spec.firstIncluded (TargetDuration pl) t 0 0 (Segments pl) with
    | Some k => k
    | None => -1
    end.
Proof.
  unfold windowAt, slots. intro H.
  rewrite (windowLoop_sequence _ _ _ _ _ _ _ H) by lia. reflexivity.
Qed.

Lemma manifestAt_Some pl t body :
  manifestAt pl t = Some body ->
  Segments body = firstn 10 (Spec.window (TargetDuration pl) t 0 (Segments pl))
  /\ SeqNo body
     = Int.uint64 match Spec.firstIncluded (TargetDuration pl) t 0 0 (Segments pl) with
                  | Some k => k
                  | None => -1
                  end.
Proof.
  unfold manifestAt. destruct (windowAt pl t) as [w|] eqn:E; [|discriminate].
  intro H. injection H as <-. cbn [Segments SeqNo setSeqNo].
  rewrite (windowAt_Segments _ _ _ E), (windowAt_sequence _ _ _ E). auto.
Qed.

Lemma manifestAt_Segments pl t body :
  manifestAt pl t = Some body ->
  Segments body = firstn 10 (Spec.window (TargetDuration pl) t 0 (Segments pl)).
Proof. intro H. apply (manifestAt_Some _ _ _ H). Qed.

(** No manifest is computed exactly when the loop runs out of segments and
    the slice has a nil slot. *)
Lemma manifestAt_None pl t :
  manifestAt pl t = None
  <-> runsOut t 0 (Segments pl) = true /\ nilSlots pl <> 0%nat.
Proof.
  unfold manifestAt, windowAt, slots, nilSlots.
  rewrite <- (windowLoop_None (TargetDuration pl) t (Segments pl) _ 0
                (mkWindow 0%Q (-1) emptyPlaylist)).
  destruct (windowLoop _ _ _ _ _); simpl; split; congruence.
Qed.

(** With positive durations the loop runs out exactly when the end of the
    playlist is within [futureTime] of the stream time. *)
Lemma runsOut_total t segs : forall c,
  positive segs -> (c <= t + futureTime)%Q ->
  runsOut t c segs = true <-> (Spec.advance c segs <= t + futureTime)%Q.
Proof.
  induction segs as [|seg rest IH]; intros c P Hc; simpl.
  - tauto.
  - inversion P as [|? ? Pseg Prest]; subst.
    cmp (c + Duration seg)%Q (t + futureTime)%Q.
    + pose proof (advance_le rest (c + Duration seg)%Q Prest).
      split; [discriminate | intro; lra].
    + apply IH; assumption.
Qed.

(** A manifest is computed when the loop breaks or the slice has no nil
    slot. *)
Lemma manifestAt_computed pl t :
  positive (Segments pl) -> (0 <= t)%Q ->
  (t + futureTime < totalDuration (Segments pl))%Q \/ nilSlots pl = 0%nat ->
  exists body, manifestAt pl t = Some body.
Proof.
  intros P Ht H.
  destruct (manifestAt pl t) as [body|] eqn:E; [exists body; reflexivity | exfalso].
  apply manifestAt_None in E. destruct E as [R N].
  destruct H as [H | H]; [|contradiction].
  apply runsOut_total in R; [|exact P | unfold futureTime; lra].
  change (totalDuration (Segments pl)) with (Spec.advance 0 (Segments pl)) in H. lra.
Qed.

Lemma answerAt_cases pl t :
  (exists body, manifestAt pl t = Some body /\ answerAt pl t = ManifestOK body)
  \/ (manifestAt pl t = None /\ answerAt pl t = Panic).
Proof.
  unfold answerAt. destruct (manifestAt pl t) as [body|]; [left; eauto | right; auto].
Qed.

(** ** Monotonicity of the sequence number *)

Section Monotone.

Variable td : Float64.float64.
Hypothesis td_nonneg : (0 <= td)%Q.

(** With a target duration that is not negative, some segment is included
    as long as the stream time is before the end of the playlist. *)
Lemma firstIncluded_Some t segs : forall c i,
  (c <= t)%Q -> (t < Spec.advance c segs)%Q ->
  Spec.firstIncluded td t c i segs <> None.
Proof.
  induction segs as [|seg rest IH]; intros c i Hc Ht; simpl in *.
  - lra.
  - unfold Spec.futureHorizon.
    cmp (c + Duration seg + 3 * td)%Q t; [discriminate|].
    cmp (c + Duration seg)%Q (t + 5)%Q; [lra|].
    apply IH; [lra | exact Ht].
Qed.

Lemma firstIncluded_mono t1 t2 segs : forall c i k2,
  (t1 < t2)%Q ->
  Spec.firstIncluded td t2 c i segs = Some k2 ->
  exists k1, Spec.firstIncluded td t1 c i segs = Some k1 /\ i <= k1 <= k2.
Proof.
  induction segs as [|seg rest IH]; intros c i k2 Ht; simpl; [discriminate|].
  unfold Spec.futureHorizon.
  cmp (c + Duration seg + 3 * td)%Q t2.
  - intro H2. injection H2 as <-.
    cmp (c + Duration seg + 3 * td)%Q t1; [|lra].
    exists i. split; [reflexivity | lia].
  - cmp (c + Duration seg)%Q (t2 + 5)%Q; [discriminate|].
    intro H2.
    cmp (c + Duration seg + 3 * td)%Q t1.
    + exists i. split; [reflexivity|].
      apply firstIncluded_ge in H2. lia.
    + cmp (c + Duration seg)%Q (t1 + 5)%Q; [lra|].
      destruct (IH _ _ _ Ht H2) as (k1 & Hk1 & Hle).
      exists k1. split; [exact Hk1 | lia].
Qed.

End Monotone.

(** ** [ServeSegment]: resolving the segment *)

(** The loop over the slots: a match among the segments is found before
    any nil slot; without a match the loop ends with [nil] when the slice
    has no nil slot and panics on the first one otherwise. *)
Lemma findSegment_firstMatch url segs n : forall c,
  findSegment (map Some segs ++ repeat None n) url c
  = match Spec.firstMatch url segs with
    | Some k => Some (nth_error segs k, Spec.advance c (firstn k segs))
    | None => if (n =? 0)%nat then Some (None, Spec.advance c segs) else None
    end.
Proof.
  induction segs as [|seg rest IH]; intro c; simpl.
  - destruct n; reflexivity.
  - destruct (Strings.EqualFold (URI seg) url); [reflexivity|].
    rewrite IH. destruct (Spec.firstMatch url rest); reflexivity.
Qed.

(** [firstMatch] gives the first index whose URI matches. *)
Lemma firstMatch_Some url segs : forall k,
  Spec.firstMatch url segs = Some k <->
  (exists seg, nth_error segs k = Some seg /\ Strings.EqualFold (URI seg) url = true)
  /\ Forall (fun seg => Strings.EqualFold (URI seg) url = false) (firstn k segs).
Proof.
  induction segs as [|seg rest IH]; intro k; simpl.
  - split; [discriminate|]. intros [(s & H & _) _]. destruct k; discriminate.
  - destruct (Strings.EqualFold (URI seg) url) eqn:E.
    + split.
      * intro H. injection H as <-. split; [exists seg; auto | constructor].
      * intros [_ F]. destruct k; [reflexivity|].
        simpl in F. inversion F; congruence.
    + destruct k as [|k]; simpl.
      * split.
        -- destruct (Spec.firstMatch url rest); discriminate.
        -- intros [(s & H & M) _]. injection H as <-. congruence.
      * split.
        -- intro H.
           assert (R : Spec.firstMatch url rest = Some k)
             by (destruct (Spec.firstMatch url rest); simpl in H; congruence).
           apply IH in R. destruct R as [R F].
           split; [exact R | constructor; assumption].
        -- intros [H F]. inversion F; subst.
           assert (R : Spec.firstMatch url rest = Some k) by (apply IH; auto).
           rewrite R. reflexivity.
Qed.

Lemma firstMatch_None url segs :
  Spec.firstMatch url segs = None <->
  Forall (fun seg => Strings.EqualFold (URI seg) url = false) segs.
Proof.
  induction segs as [|seg rest IH]; simpl.
  - split; [constructor | reflexivity].
  - destruct (Strings.EqualFold (URI seg) url) eqn:E.
    + split; [discriminate|]. intro F. inversion F; congruence.
    + destruct (Spec.firstMatch url rest); simpl.
      * split; [discriminate|]. intro F. inversion F; subst.
        apply IH in H2. discriminate.
      * split; [|reflexivity]. intros _. constructor; [exact E | apply IH; reflexivity].
Qed.

(** [EqualFold] compares the lower-case forms. *)
Lemma EqualFold_lowercase s : forall t,
  Strings.EqualFold s t = true <-> lowercase s = lowercase t.
Proof.
  induction s as [|a s IH]; intros [|b t]; simpl; try (split; [reflexivity|reflexivity]);
    try (split; discriminate).
  rewrite andb_true_iff, Ascii.eqb_eq, IH. split.
  - intros [-> ->]. reflexivity.
  - intro H. injection H. auto.
Qed.

(** ** [ServeSegment]: the gate *)

Lemma trunc_floor (x : Q) : (0 <= x)%Q -> Float64.trunc x = Qfloor x.
Proof.
  intro H. unfold Float64.trunc, Qfloor. destruct x as [n d]. simpl.
  apply Z.quot_div_nonneg; [|lia].
  unfold Qle in H. simpl in H. lia.
Qed.

Lemma int64_small (z : Z) : - 2 ^ 63 <= z < 2 ^ 63 -> Int.int64 z = z.
Proof.
  intro H. unfold Int.int64.
  rewrite Z.mod_small by lia. lia.
Qed.

(** When the segment starts in the future, the sleep is a whole number of
    seconds: the fraction of [segmentStartTime - curStreamTime] is lost in
    the conversion to [time.Duration]. *)
Lemma gate_future (start cur : Q) :
  (cur < start)%Q -> (start - cur < 9000000000)%Q ->
  gate start cur = (Some (Qfloor (start - cur) * Time.Second), start).
Proof.
  intros Hlt Hb. unfold gate.
  rewrite (proj2 (gtb_true start cur) Hlt).
  f_equal. f_equal. unfold Time.mul, Time.ofFloat.
  rewrite trunc_floor by lra.
  assert (0 <= Qfloor (start - cur)).
  { change 0 with (Qfloor 0). apply Qfloor_resp_le. lra. }
  assert (Qfloor (start - cur) <= 9000000000).
  { change 9000000000 with (Qfloor 9000000000). apply Qfloor_resp_le. lra. }
  unfold Time.Second.
  rewrite (int64_small (Qfloor _)) by lia.
  apply int64_small. lia.
Qed.

(** In particular a segment less than a second away is not waited for. *)
Lemma gate_future_short (start cur : Q) :
  (cur < start)%Q -> (start < cur + 1)%Q -> gate start cur = (Some 0, start).
Proof.
  intros Hlt Hb. rewrite gate_future by lra.
  assert (F : Qfloor (start - cur) = 0).
  { assert (0 <= Qfloor (start - cur))
      by (change 0 with (Qfloor 0); apply Qfloor_resp_le; lra).
    assert (Qfloor (start - cur) < 1).
    { rewrite Zlt_Qlt. pose proof (Qfloor_le (start - cur)).
      change (inject_Z 1) with 1%Q. lra. }
    lia. }
  rewrite F. reflexivity.
Qed.

Lemma gate_past (start cur : Q) :
  (start <= cur)%Q -> gate start cur = (None, cur).
Proof.
  intro H. unfold gate. rewrite (proj2 (gtb_false start cur) H). reflexivity.
Qed.

Section Segment.

Variable path_Join : string -> string -> string.
Variable os_Open : string -> option File.

(** What [ServeSegment] answers to [/lhls/<url>] when the file opens and a
    segment matches. *)
Lemma ServeSegment_found l url now file size k seg :
  os_Open (path_Join (baseDir l) url) = Some file ->
  statSize file = Some size ->
  Spec.firstMatch url (Segments (playlist l)) = Some k ->
  nth_error (Segments (playlist l)) k = Some seg ->
  let start := Spec.startOffset (Segments (playlist l)) k in
  let g := gate start (Time.Seconds (Time.Since now (startTime l))) in
  let rd := Float64.Max (start + Duration seg - snd g)%Q 1%Q in
  ServeSegment path_Join os_Open l ("/lhls/" ++ url) now
  = SegmentOK (mkDelivery (fst g) rd (Float64.ofInt size / rd)%Q file).
Proof.
  intros Ho Hs Hm Hn start g rd. unfold ServeSegment.
  change (Strings.drop 6 ("/lhls/" ++ url)) with url.
  change (String.length ("/lhls/" ++ url) <? 6)%nat with false.
  cbv iota. unfold slots. rewrite Ho, Hs, findSegment_firstMatch, Hm, Hn.
  fold (Spec.startOffset (Segments (playlist l)) k). fold start. fold g.
  destruct g as [sl cur]. reflexivity.
Qed.

(** Without a match: 404 when the file does not open, when its size cannot
    be read or when the slice has no nil slot; the panic otherwise. *)
Lemma ServeSegment_unknown l url now :
  Spec.firstMatch url (Segments (playlist l)) = None ->
  ServeSegment path_Join os_Open l ("/lhls/" ++ url) now
  = match os_Open (path_Join (baseDir l) url) with
    | None => NotFound
    | Some file =>
        match statSize file with
        | None => NotFound
        | Some _ => if (nilSlots (playlist l) =? 0)%nat then NotFound else Panic
        end
    end.
Proof.
  intro Hm. unfold ServeSegment.
  change (Strings.drop 6 ("/lhls/" ++ url)) with url.
  change (String.length ("/lhls/" ++ url) <? 6)%nat with false.
  cbv iota.
  destruct (os_Open _) as [file|]; [|reflexivity].
  destruct (statSize file); [|reflexivity].
  unfold slots. rewrite findSegment_firstMatch, Hm. fold (nilSlots (playlist l)).
  destruct (nilSlots (playlist l) =? 0)%nat; reflexivity.
Qed.

End Segment.

(** The window depends on the stream time through comparisons only. *)
Lemma gtb_Qeq_r (x t t' : Q) : (t == t')%Q -> Float64.gtb x t = Float64.gtb x t'.
Proof.
  intro E. cmp x t; symmetry; [apply gtb_true | apply gtb_false]; rewrite <- E; assumption.
Qed.

Lemma windowLoop_Qeq td (t t' : Q) segs : (t == t')%Q ->
  forall i w, windowLoop td t i segs w = windowLoop td t' i segs w.
Proof.
  intro E. induction segs as [|[seg|] rest IH]; intros i w; simpl;
    [reflexivity | | reflexivity].
  assert (S : windowStep td t i seg w = windowStep td t' i seg w).
  { unfold windowStep. rewrite (gtb_Qeq_r _ t t' E). reflexivity. }
  rewrite S.
  rewrite (gtb_Qeq_r _ (t + futureTime)%Q (t' + futureTime)%Q) by (rewrite E; reflexivity).
  destruct (Float64.gtb _ _); [reflexivity | apply IH].
Qed.

Lemma manifestAt_Qeq pl (t t' : Q) : (t == t')%Q -> manifestAt pl t = manifestAt pl t'.
Proof.
  intro E. unfold manifestAt, windowAt.
  rewrite (windowLoop_Qeq _ t t' _ E). reflexivity.
Qed.

Lemma answerAt_Qeq pl (t t' : Q) : (t == t')%Q -> answerAt pl t = answerAt pl t'.
Proof. intro E. unfold answerAt. rewrite (manifestAt_Qeq pl t t' E). reflexivity. Qed.

(** ** Routing *)

Lemma HasPrefix_app p : forall s,
  Strings.HasPrefix s p = true -> s = (p ++ Strings.drop (String.length p) s)%string.
Proof.
  induction p as [|a p IH]; intros s H; simpl in *; [reflexivity|].
  destruct s as [|b s]; [discriminate|].
  apply andb_true_iff in H. destruct H as [Hab Hs].
  apply Ascii.eqb_eq in Hab. subst b.
  simpl. f_equal. apply IH, Hs.
Qed.

Section Routing.

Variable path_Join : string -> string -> string.
Variable os_Open : string -> option File.

(** Under [/live/], every path but [/live/manifest.m3u8] goes to the file
    server. *)
Lemma muxMatch_live p :
  Strings.HasPrefix p "/live/" = true -> p <> "/live/manifest.m3u8"%string ->
  muxMatch routes p None = Some liveFiles.
Proof.
  intros Hp Hne. apply HasPrefix_app in Hp.
  remember (Strings.drop (String.length "/live/") p) as rest eqn:Hr. clear Hr.
  subst p.
  assert (E : String.eqb "manifest.m3u8" rest = false).
  { apply String.eqb_neq. intro E. apply Hne. rewrite <- E. reflexivity. }
  assert (M1 : pathMatch "/live/manifest.m3u8" ("/live/" ++ rest) = false)
    by exact E.
  assert (M2 : pathMatch "/live/" ("/live/" ++ rest) = true) by reflexivity.
  assert (M3 : pathMatch "/lhls/manifest.m3u8" ("/live/" ++ rest) = false)
    by reflexivity.
  assert (M4 : pathMatch "/lhls/" ("/live/" ++ rest) = false) by reflexivity.
  assert (M5 : pathMatch "/live" ("/live/" ++ rest) = false) by reflexivity.
  assert (M6 : pathMatch "/lhls" ("/live/" ++ rest) = false) by reflexivity.
  unfold routes, muxMatch. rewrite M1, M2, M3, M4, M5, M6. reflexivity.
Qed.

Lemma serve_live_file l p now now' :
  Strings.HasPrefix p "/live/" = true -> p <> "/live/manifest.m3u8"%string ->
  serve path_Join os_Open l p now now'
  = (l, FileServer path_Join os_Open (baseDir l) (Strings.drop 6 p)).
Proof.
  intros Hp Hne. unfold serve. rewrite (muxMatch_live p Hp Hne).
  unfold StripPrefix. rewrite Hp. reflexivity.
Qed.

(** Under [/lhls/], every path that does not end in [manifest.m3u8] goes
    to [ServeSegment], which leaves the handler as it is. *)
Lemma serve_lhls_segment l url now now' :
  Strings.HasSuffix ("/lhls/" ++ url) "manifest.m3u8" = false ->
  serve path_Join os_Open l ("/lhls/" ++ url) now now'
  = (l, ServeSegment path_Join os_Open l ("/lhls/" ++ url) now).
Proof.
  intro Hs.
  assert (M : muxMatch routes ("/lhls/" ++ url) None = Some lhlsHandler).
  { assert (M1 : pathMatch "/live/manifest.m3u8" ("/lhls/" ++ url) = false)
      by reflexivity.
    assert (M2 : pathMatch "/live/" ("/lhls/" ++ url) = false) by reflexivity.
    assert (M4 : pathMatch "/lhls/" ("/lhls/" ++ url) = true) by reflexivity.
    assert (M5 : pathMatch "/live" ("/lhls/" ++ url) = false) by reflexivity.
    assert (M6 : pathMatch "/lhls" ("/lhls/" ++ url) = false) by reflexivity.
    unfold routes, muxMatch. rewrite M1, M2, M4, M5, M6.
    destruct (pathMatch "/lhls/manifest.m3u8" ("/lhls/" ++ url)); reflexivity. }
  unfold serve, ServeHTTP. rewrite M, Hs. reflexivity.
Qed.

Lemma serve_manifest_routes l now now' :
  serve path_Join os_Open l "/live/manifest.m3u8" now now' = ServeManifest l now now'
  /\ serve path_Join os_Open l "/lhls/manifest.m3u8" now now' = ServeManifest l now now'.
Proof. split; reflexivity. Qed.

End Routing.

(** * Properties of the specification *)

Import Examples.

(** ** C1: the window is a contiguous run of the playlist *)

(** C1, as stated, fails: the segment list of the manifest is not always
    exactly the set of visited segments that pass the inclusion test.  With
    twelve segments of one second, a target duration of ten seconds and six
    seconds elapsed, all twelve segments are visited and pass the test (the
    loop breaks on the twelfth, before any nil slot), and the list holds the
    first ten only: the segment of index 10 is missing. *)
Lemma C1_window_misses_segments_beyond_ten :
  positive segs12
  /\ (0 <= 6 /\ 6 < totalDuration segs12)%Q
  /\ nth_error segs12 10 = Some (mkSegment "s10.ts" 1%Q)
  /\ (Spec.cursorAt segs12 9 <= 6 + futureTime)%Q
  /\ (6 < Spec.cursorAt segs12 10 + 3 * TargetDuration playlist12)%Q
  /\ In (mkSegment "s10.ts" 1%Q) (Spec.window 10%Q 6%Q 0%Q segs12)
  /\ exists w,
       windowAt playlist12 6%Q = Some w
       /\ ~ In (mkSegment "s10.ts" 1%Q) (Segments (curPlaylist w))
       /\ Segments (curPlaylist w) <> Spec.window 10%Q 6%Q 0%Q segs12.
Proof.
  split; [|split; [|split; [|split; [|split; [|split]]]]].
  - unfold positive, segs12. simpl. repeat constructor.
  - split; vm_compute; [discriminate | reflexivity].
  - reflexivity.
  - vm_compute. discriminate.
  - reflexivity.
  - vm_compute. do 10 right. left. reflexivity.
  - eexists. split; [vm_compute; reflexivity|]. split.
    + vm_compute. intro H.
      repeat (destruct H as [H | H]; [discriminate H|]). exact H.
    + vm_compute. discriminate.
Qed.

(** C1, amended: for every playlist whose segment durations are all
    positive and every elapsed time [t >= 0] with [t + 5 < totalDuration]
    (or any [t >= 0] when the slice of the playlist has no nil slot), the
    loop of [ServeManifest] produces a segment list that is a contiguous run
    of the playlist: the loop visits the first [v] segments, stopping as
    soon as the cursor exceeds [t + 5]; the visited segments that pass the
    test [cursor + 3 * targetDuration > t] are exactly those from an index
    [s] on, and the list holds the first ten of them (all of them when there
    are at most ten); no visited segment, hence no included one, has a
    nominal start offset above [t + 5]. *)
Theorem C1_window_contiguous_run (pl : MediaPlaylist) (t : Q) :
  positive (Segments pl) -> (0 <= t)%Q ->
  (t + futureTime < totalDuration (Segments pl))%Q \/ nilSlots pl = 0%nat ->
  exists (w : Window) (v s : nat),
    windowAt pl t = Some w
    /\ (s <= v <= List.length (Segments pl))%nat
    /\ Spec.window (TargetDuration pl) t 0%Q (Segments pl)
       = skipn s (firstn v (Segments pl))
    /\ Segments (curPlaylist w)
       = firstn 10 (skipn s (firstn v (Segments pl)))
    /\ (forall k, (k < v)%nat ->
          (t < Spec.cursorAt (Segments pl) k + 3 * TargetDuration pl)%Q <-> (s <= k)%nat)
    /\ (forall k, (S k < v)%nat -> (Spec.cursorAt (Segments pl) k <= t + futureTime)%Q)
    /\ ((v < List.length (Segments pl))%nat ->
          exists k, v = S k /\ (t + futureTime < Spec.cursorAt (Segments pl) k)%Q)
    /\ (forall k, (k < v)%nat -> (Spec.startOffset (Segments pl) k <= t + futureTime)%Q).
Proof.
  intros P Ht Hb.
  destruct (manifestAt_computed pl t P Ht Hb) as [body Hbody].
  unfold manifestAt in Hbody.
  destruct (windowAt pl t) as [w|] eqn:Hw'; [clear Hbody | discriminate].
  destruct (window_run (TargetDuration pl) t (Segments pl) 0%Q P)
    as (v & s & Hle & Hw & Hskip & Hin & Hvis & Hbrk).
  exists w, v, s. unfold Spec.cursorAt, Spec.startOffset, futureTime.
  split; [reflexivity|].
  repeat split; try lia; try assumption.
  - rewrite <- Hw. apply windowAt_Segments, Hw'.
  - intro Hq. destruct (Nat.le_gt_cases s k) as [L | L]; [exact L|].
    specialize (Hskip k L). lra.
  - intro L. apply Hin. lia.
  - intros [|k] Hk; simpl; [lra|]. apply Hvis. lia.
Qed.

Lemma C1_window_contiguous_run_witness :
  positive segs3 /\ (0 <= 12)%Q
  /\ ((12 + futureTime < totalDuration (Segments playlist3))%Q
      \/ nilSlots playlist3 = 0%nat)
  /\ exists (w : Window) (v s : nat),
    windowAt playlist3 12%Q = Some w
    /\ (s <= v <= List.length (Segments playlist3))%nat
    /\ Spec.window (TargetDuration playlist3) 12%Q 0%Q (Segments playlist3)
       = skipn s (firstn v (Segments playlist3))
    /\ Segments (curPlaylist w)
       = firstn 10 (skipn s (firstn v (Segments playlist3)))
    /\ (forall k, (k < v)%nat ->
          (12 < Spec.cursorAt (Segments playlist3) k + 3 * TargetDuration playlist3)%Q
          <-> (s <= k)%nat)
    /\ (forall k, (S k < v)%nat ->
          (Spec.cursorAt (Segments playlist3) k <= 12 + futureTime)%Q)
    /\ ((v < List.length (Segments playlist3))%nat ->
          exists k, v = S k /\ (12 + futureTime < Spec.cursorAt (Segments playlist3) k)%Q)
    /\ (forall k, (k < v)%nat ->
          (Spec.startOffset (Segments playlist3) k <= 12 + futureTime)%Q).
Proof.
  assert (P : positive segs3) by (unfold positive, segs3; repeat constructor).
  assert (H : (0 <= 12)%Q) by (vm_compute; discriminate).
  assert (B : (12 + futureTime < totalDuration (Segments playlist3))%Q
              \/ nilSlots playlist3 = 0%nat) by (left; reflexivity).
  split; [exact P | split; [exact H | split; [exact B|]]].
  exact (C1_window_contiguous_run playlist3 12%Q P H B).
Defined.

(** ** C2: three segments of ten seconds *)

(** C2, as stated, fails: at [elapsed = 0] the window of the playlist of
    three ten-second segments is not [[segment0, segment1]].  After the
    first segment the cursor is 10, which exceeds [0 + 5], so the loop
    breaks before it visits the second segment. *)
Lemma C2_window_at_zero_is_not_two_segments :
  (exists body, manifestAt playlist3 0%Q = Some body
                /\ Segments body <> firstn 2 segs3)
  /\ forall now', snd (ServeManifest handler3 0 now')
                  <> ManifestOK (mkPlaylist 10%Q 0 (firstn 2 segs3) 10 10).
Proof.
  split.
  - eexists. split; [vm_compute; reflexivity | vm_compute; discriminate].
  - intro now'. rewrite ServeManifest_unfold. vm_compute. discriminate.
Qed.

(** C2, amended: for the playlist of three segments of ten seconds with a
    target duration of ten seconds, the window computed at [elapsed = 0] is
    [[segment0]] with sequence number 0, and a request for the segment of
    index 2 (start offset 20) at [elapsed = 0] asks for a sleep of twenty
    seconds before it delivers anything. *)
Theorem C2_three_segments_at_zero :
  (forall now',
     ServeManifest handler3 0 now'
     = (handler3, ManifestOK (mkPlaylist 10%Q 0 (firstn 1 segs3) 10 10)))
  /\ option_map sequence (windowAt playlist3 0%Q) = Some 0
  /\ (Spec.startOffset segs3 2 == 20)%Q
  /\ exists d,
       ServeSegment join files handler3 "/lhls/seg002.ts" 0 = SegmentOK d
       /\ slept d = Some (20 * Time.Second).
Proof.
  split; [|split; [|split]].
  - intro now'. rewrite ServeManifest_unfold. reflexivity.
  - reflexivity.
  - reflexivity.
  - eexists. split; reflexivity.
Qed.

(** ** C3: the gate *)

(** C3, evaluated where it fails: the second segment of [playlist3] starts
    at 10 s; requested 9.5 s into the stream it is half a second in the
    future, and [ServeSegment] calls [time.Sleep] with a duration of zero:
    [time.Duration(0.5)] is 0.  The stream time it goes on with is the
    start offset all the same, so that the rate is computed for the full ten
    seconds. *)
Theorem C3_gate_drops_fraction_of_second :
  (Spec.startOffset segs3 1
   - Time.Seconds (Time.Since 9500000000%Z (startTime handler3)) == 1 # 2)%Q
  /\ exists d,
       ServeSegment join files handler3 "/lhls/seg001.ts" 9500000000 = SegmentOK d
       /\ slept d = Some 0
       /\ (rateDuration d == 10)%Q.
Proof.
  split; [reflexivity|].
  eexists. split; [reflexivity|]. split; reflexivity.
Qed.

(** ** C4: the shaping rate *)

(** C4: for every resolved segment, [ServeSegment] computes the remaining
    play time as [max(startOffset + duration - elapsed, 1)], where [elapsed]
    is the stream time after the gate (the start offset when the segment was
    in the future, the measured time otherwise); it is at least 1, hence not
    zero, and the rate is the file's size divided by it. *)
Theorem C4_rate_is_size_over_remaining_time
  (path_Join : string -> string -> string) (os_Open : string -> option File)
  (l : FakeLHLSManifestHandler) (url : string) (now : Time.Time)
  (file : File) (size : Z) (k : nat) (seg : MediaSegment) :
  os_Open (path_Join (baseDir l) url) = Some file ->
  statSize file = Some size ->
  Spec.firstMatch url (Segments (playlist l)) = Some k ->
  nth_error (Segments (playlist l)) k = Some seg ->
  let measured := Time.Seconds (Time.Since now (startTime l)) in
  let startOffset := Spec.startOffset (Segments (playlist l)) k in
  let elapsed := Qmax measured startOffset in
  exists d,
    ServeSegment path_Join os_Open l ("/lhls/" ++ url) now = SegmentOK d
    /\ (rateDuration d == Qmax (startOffset + Duration seg - elapsed) 1)%Q
    /\ (1 <= rateDuration d)%Q
    /\ ~ (rateDuration d == 0)%Q
    /\ (rateLimit d == inject_Z size / rateDuration d)%Q.
Proof.
  intros Ho Hs Hm Hn measured startOffset elapsed.
  rewrite (ServeSegment_found path_Join os_Open l url now file size k seg Ho Hs Hm Hn).
  fold startOffset. fold measured.
  eexists. split; [reflexivity|]. simpl.
  assert (G : (snd (gate startOffset measured) == elapsed)%Q).
  { unfold gate, elapsed. cmp startOffset measured; simpl.
    - symmetry. apply Q.max_r. lra.
    - symmetry. apply Q.max_l. lra. }
  split; [|split; [|split]].
  - rewrite Max_Qmax. rewrite G. reflexivity.
  - apply Max_ge_r.
  - pose proof (Max_ge_r (startOffset + Duration seg - snd (gate startOffset measured)) 1).
    intro Z. lra.
  - reflexivity.
Qed.

Lemma C4_rate_is_size_over_remaining_time_witness :
  files (join (baseDir handler3) "seg001.ts") = Some (mkFile (Some 1000) [])
  /\ Spec.firstMatch "seg001.ts" (Segments (playlist handler3)) = Some 1%nat
  /\ exists d,
       ServeSegment join files handler3 "/lhls/seg001.ts" 14000000000 = SegmentOK d
       /\ (rateDuration d == 6)%Q
       /\ (1 <= rateDuration d)%Q
       /\ (rateLimit d == 1000 / 6)%Q.
Proof.
  assert (Ho : files (join (baseDir handler3) "seg001.ts") = Some (mkFile (Some 1000) []))
    by reflexivity.
  assert (Hm : Spec.firstMatch "seg001.ts" (Segments (playlist handler3)) = Some 1%nat)
    by reflexivity.
  split; [exact Ho | split; [exact Hm |]].
  destruct (C4_rate_is_size_over_remaining_time join files handler3 "seg001.ts"
              14000000000 (mkFile (Some 1000) []) 1000 1 (mkSegment "seg001.ts" 10%Q)
              Ho eq_refl Hm eq_refl)
    as (d & Hd & Hrd & Hge & _ & Hrl).
  exists d. split; [exact Hd|]. split; [|split].
  - rewrite Hrd. reflexivity.
  - exact Hge.
  - rewrite Hrl, Hrd. reflexivity.
Defined.

(** ** C5: the reset at the end of the stream *)

(** C5, as stated, fails at [elapsed = totalDuration]: the test of the reset
    is [l.duration < curStreamTime], which is false there.  Thirty seconds
    into the thirty-second stream of [playlist3], a manifest request leaves
    [startTime] as it is and does not answer as a request at [elapsed = 0]
    does: the window is computed for thirty seconds (and the loop, which
    meets no break, ends in the panic of the nil slot). *)
Lemma C5_no_reset_at_total_duration :
  (totalDuration (Segments playlist3)
   <= Time.Seconds (Time.Since 30000000000%Z (startTime handler3)))%Q
  /\ fst (ServeManifest handler3 30000000000 30000000001) = handler3
  /\ startTime (fst (ServeManifest handler3 30000000000 30000000001)) <> 30000000001
  /\ manifestStreamTime handler3 30000000000 = Time.Seconds 30000000000
  /\ snd (ServeManifest handler3 30000000000 30000000001)
     <> answerAt playlist3 0%Q
  /\ snd (ServeManifest handler3 30000000000 30000000001)
     <> snd (ServeManifest handler3 0 1).
Proof.
  split; [vm_compute; discriminate|].
  split; [reflexivity|].
  split; [vm_compute; discriminate|].
  split; [reflexivity|].
  split; vm_compute; discriminate.
Qed.

(** C5, amended: for every manifest request with [elapsed > totalDuration]
    (the handler's [duration] is strictly less than the stream time),
    [ServeManifest] answers as for [elapsed = 0] and re-anchors [startTime]
    to the current instant; a request at that instant on the re-anchored
    handler measures an elapsed time of zero and gets the same answer.
    With positive durations and a playlist longer than five seconds (or a
    slice without nil slot) that answer is the manifest of the first ten
    segments of the window for [elapsed = 0]. *)
Theorem C5_reset_after_total_duration
  (l : FakeLHLSManifestHandler) (now now' : Time.Time) :
  (duration l < Time.Seconds (Time.Since now (startTime l)))%Q ->
  ServeManifest l now now'
  = (setStartTime now' l, answerAt (playlist l) 0%Q)
  /\ (Time.Seconds (Time.Since now' (startTime (setStartTime now' l))) == 0)%Q
  /\ (forall now'',
        snd (ServeManifest (setStartTime now' l) now' now'')
        = snd (ServeManifest l now now'))
  /\ (positive (Segments (playlist l)) ->
      (futureTime < totalDuration (Segments (playlist l)))%Q
      \/ nilSlots (playlist l) = 0%nat ->
      exists body,
        snd (ServeManifest l now now') = ManifestOK body
        /\ Segments body
           = firstn 10 (Spec.window (TargetDuration (playlist l)) 0%Q 0%Q
                          (Segments (playlist l)))).
Proof.
  intro H.
  assert (E : ServeManifest l now now'
              = (setStartTime now' l, answerAt (playlist l) 0%Q)).
  { rewrite ServeManifest_unfold. unfold manifestStreamTime.
    rewrite (proj2 (ltb_true _ _) H). reflexivity. }
  assert (Z0 : (Time.Seconds (Time.Since now' (startTime (setStartTime now' l))) == 0)%Q).
  { simpl. unfold Time.Seconds, Time.Since. rewrite Z.sub_diag. reflexivity. }
  split; [exact E | split; [exact Z0 | split]].
  - intro now''. rewrite E, ServeManifest_unfold. cbn [snd playlist setStartTime].
    apply answerAt_Qeq. unfold manifestStreamTime.
    destruct (Float64.ltb _ _); [reflexivity | exact Z0].
  - intros P Hb. rewrite E. cbn [snd].
    assert (Hb' : (0 + futureTime < totalDuration (Segments (playlist l)))%Q
                  \/ nilSlots (playlist l) = 0%nat).
    { destruct Hb as [Hb | Hb]; [left; lra | right; exact Hb]. }
    destruct (manifestAt_computed (playlist l) 0%Q P ltac:(lra) Hb') as [body Hbody].
    exists body. unfold answerAt. rewrite Hbody. split; [reflexivity|].
    apply (manifestAt_Segments _ _ _ Hbody).
Qed.

Lemma C5_reset_after_total_duration_witness :
  (duration handler3 < Time.Seconds (Time.Since 31000000000%Z (startTime handler3)))%Q
  /\ ServeManifest handler3 31000000000 31000000002
     = (setStartTime 31000000002 handler3, answerAt playlist3 0%Q)
  /\ (Time.Seconds
        (Time.Since 31000000002%Z (startTime (setStartTime 31000000002%Z handler3)))
      == 0)%Q
  /\ (forall now'',
        snd (ServeManifest (setStartTime 31000000002 handler3) 31000000002 now'')
        = snd (ServeManifest handler3 31000000000 31000000002))
  /\ exists body,
       snd (ServeManifest handler3 31000000000 31000000002) = ManifestOK body
       /\ Segments body
          = firstn 10 (Spec.window (TargetDuration playlist3) 0%Q 0%Q
                         (Segments playlist3)).
Proof.
  assert (H : (duration handler3
               < Time.Seconds (Time.Since 31000000000%Z (startTime handler3)))%Q)
    by reflexivity.
  assert (P : positive (Segments (playlist handler3)))
    by (simpl; unfold positive, segs3; repeat constructor).
  assert (B : (futureTime < totalDuration (Segments (playlist handler3)))%Q
              \/ nilSlots (playlist handler3) = 0%nat) by (left; reflexivity).
  split; [exact H|].
  destruct (C5_reset_after_total_duration handler3 31000000000 31000000002 H)
    as (A1 & A2 & A3 & A4).
  split; [exact A1 | split; [exact A2 | split; [exact A3 | exact (A4 P B)]]].
Defined.

(** ** C6: monotonicity of the sequence number *)

(** C6, evaluated where it fails: on the three ten-second segments with a
    target duration of one second, in their slice of 1024 slots, the loop
    computes the sequence number 0 at [t1 = 3]; at [t2 = 26], inside the
    stream ([26 < 30]), no cursor exceeds [26 + 5], the loop reads the nil
    slot after the last segment and panics: the request gets no manifest and
    no sequence number.  In a slice without nil slot the same request is
    answered, with the sequence number 2. *)
Theorem C6_no_sequence_number_near_the_end :
  positive (Segments playlist3short)
  /\ (0 <= TargetDuration playlist3short)%Q
  /\ (0 <= 3 /\ 3 < 26 /\ 26 < totalDuration (Segments playlist3short))%Q
  /\ nilSlots playlist3short = 1021%nat
  /\ option_map sequence (windowAt playlist3short 3%Q) = Some 0
  /\ windowAt playlist3short 26%Q = None
  /\ (forall now',
        ServeManifest (newHandler playlist3short "media" 0) 26000000000 now'
        = (newHandler playlist3short "media" 0, Panic))
  /\ option_map sequence (windowAt (mkPlaylist 1%Q 0 segs3 8 3) 26%Q) = Some 2.
Proof.
  split; [simpl; unfold positive, segs3; repeat constructor|].
  split; [vm_compute; discriminate|].
  split; [repeat split; vm_compute; congruence|].
  split; [reflexivity|].
  split; [reflexivity|].
  split; [reflexivity|].
  split; [|reflexivity].
  intro now'. rewrite ServeManifest_unfold. reflexivity.
Qed.

(** ** C7: resolving the requested URI *)

(** C7, as stated, fails: a request that differs from a stored URI in letter
    case only does not succeed on the directory as it is stored.  [SEG001.ts]
    differs from the stored [seg001.ts] in case only and the loop resolves
    it to that segment, but [ServeSegment] opens the file under the
    requested spelling first: no file [SEG001.ts] is stored, and the answer
    is 404. *)
Lemma C7_case_variant_is_not_found_on_stored_files :
  lowercase "SEG001.ts" = lowercase "seg001.ts"
  /\ findSegment (slots playlist3) "SEG001.ts" 0%Q
     = Some (Some (mkSegment "seg001.ts" 10%Q), Spec.startOffset segs3 1)
  /\ storedFiles (join (baseDir handler3) "seg001.ts") <> None
  /\ storedFiles (join (baseDir handler3) "SEG001.ts") = None
  /\ forall now, ServeSegment join storedFiles handler3 "/lhls/SEG001.ts" now = NotFound.
Proof.
  split; [reflexivity|].
  split; [reflexivity|].
  split; [vm_compute; discriminate|].
  split; [reflexivity|].
  intro now. reflexivity.
Qed.

(** C7, amended: [ServeSegment] resolves the requested URI against the
    playlist by comparison up to letter case: the loop stops at the first
    segment whose URI matches, with the sum of the durations of the segments
    before it as start offset.  A request whose file does not open under the
    requested spelling is answered NotFound, whatever the playlist holds; a
    request whose URI matches no segment is answered NotFound when the loop
    reaches the end of the slice (no nil slot); a request that matches a
    stored URI up to letter case is resolved to that segment and is served
    when its file opens under the requested spelling. *)
Theorem C7_segment_resolved_up_to_case
  (path_Join : string -> string -> string) (os_Open : string -> option File)
  (l : FakeLHLSManifestHandler) (url : string) (now : Time.Time) :
  let segs := Segments (playlist l) in
  (forall s u, Strings.EqualFold s u = true <-> lowercase s = lowercase u)
  /\ Strings.EqualFold "seg001.ts" "SEG001.ts" = true
  /\ (os_Open (path_Join (baseDir l) url) = None ->
      ServeSegment path_Join os_Open l ("/lhls/" ++ url) now = NotFound)
  /\ (Forall (fun seg => Strings.EqualFold (URI seg) url = false) segs ->
      nilSlots (playlist l) = 0%nat ->
      findSegment (slots (playlist l)) url 0%Q = Some (None, totalDuration segs)
      /\ ServeSegment path_Join os_Open l ("/lhls/" ++ url) now = NotFound)
  /\ (forall k seg,
        nth_error segs k = Some seg ->
        Strings.EqualFold (URI seg) url = true ->
        Forall (fun seg' => Strings.EqualFold (URI seg') url = false) (firstn k segs) ->
        findSegment (slots (playlist l)) url 0%Q
        = Some (Some seg, Spec.startOffset segs k)
        /\ forall file size,
             os_Open (path_Join (baseDir l) url) = Some file ->
             statSize file = Some size ->
             exists d,
               ServeSegment path_Join os_Open l ("/lhls/" ++ url) now = SegmentOK d
               /\ payload d = file).
Proof.
  intro segs. split; [|split; [|split; [|split]]].
  - intros s u. apply EqualFold_lowercase.
  - reflexivity.
  - intro Ho. unfold ServeSegment.
    change (Strings.drop 6 ("/lhls/" ++ url)) with url.
    change (String.length ("/lhls/" ++ url) <? 6)%nat with false.
    cbv iota. rewrite Ho. reflexivity.
  - subst segs. intros F N. apply firstMatch_None in F. split.
    + unfold slots. rewrite findSegment_firstMatch, F.
      fold (nilSlots (playlist l)). rewrite N. reflexivity.
    + rewrite (ServeSegment_unknown path_Join os_Open l url now F), N.
      destruct (os_Open _) as [file|]; [|reflexivity].
      destruct (statSize file); reflexivity.
  - subst segs. intros k seg Hn He Hf.
    assert (M : Spec.firstMatch url (Segments (playlist l)) = Some k).
    { apply firstMatch_Some. split; [exists seg; auto | exact Hf]. }
    split.
    + unfold slots. rewrite findSegment_firstMatch, M, Hn. reflexivity.
    + intros file size Ho Hs.
      rewrite (ServeSegment_found path_Join os_Open l url now file size k seg Ho Hs M Hn).
      eexists. split; reflexivity.
Qed.

Lemma C7_segment_resolved_up_to_case_witness :
  ServeSegment join files handler3 "/lhls/movie.ts" 0 = NotFound
  /\ findSegment (slots playlist3) "SEG001.ts" 0%Q
     = Some (Some (mkSegment "seg001.ts" 10%Q), Spec.startOffset segs3 1)
  /\ exists d, ServeSegment join files handler3 "/lhls/SEG001.ts" 0 = SegmentOK d.
Proof.
  destruct (C7_segment_resolved_up_to_case join files handler3 "movie.ts" 0)
    as (_ & _ & Closed & _ & _).
  destruct (C7_segment_resolved_up_to_case join files handler3 "SEG001.ts" 0)
    as (_ & _ & _ & _ & Known).
  assert (F' : Forall (fun seg => Strings.EqualFold (URI seg) "SEG001.ts" = false)
                 (firstn 1 (Segments (playlist handler3))))
    by (simpl; repeat constructor).
  destruct (Known 1%nat (mkSegment "seg001.ts" 10%Q) eq_refl eq_refl F') as [R Served].
  destruct (Served (mkFile (Some 1000) []) 1000 eq_refl eq_refl) as (d & Hd & _).
  split; [exact (Closed eq_refl) | split; [exact R | exists d; exact Hd]].
Defined.

(** ** C8: the sentinel sequence number *)

(** C8, evaluated where it fails: one segment of ten seconds, a target
    duration of zero, ten seconds into the stream.  No segment qualifies
    ([10 + 0 > 10] is false) and the loop meets no break ([10 > 15] is
    false), so it goes on to the nil slot after the segment and panics: no
    manifest, hence no sentinel, is reported.  In a slice without nil slot
    the same request reports the sequence number [2^64 - 1]. *)
Theorem C8_no_sentinel_before_the_nil_slot :
  let pl := mkPlaylist 0%Q 0 [mkSegment "only.ts" 10%Q] 8 1024 in
  let l := newHandler pl "media" 0 in
  Spec.window (TargetDuration pl) (manifestStreamTime l 10000000000) 0%Q
    (Segments pl) = []
  /\ (forall now', ServeManifest l 10000000000 now' = (l, Panic))
  /\ exists body,
       manifestAt (mkPlaylist 0%Q 0 [mkSegment "only.ts" 10%Q] 8 1) 10%Q = Some body
       /\ Segments body = [] /\ SeqNo body = 2 ^ 64 - 1.
Proof.
  intros pl l. split; [reflexivity|]. split.
  - intro now'. rewrite ServeManifest_unfold. reflexivity.
  - eexists. split; [vm_compute; reflexivity|]. split; reflexivity.
Qed.

(** ** C9: the comparison routes *)

(** C9, as stated, fails for the manifest: [/live/manifest.m3u8] is
    registered with the same handler as [/lhls/manifest.m3u8].  On
    [playlist3] it answers with a window and not with the whole playlist,
    its answer changes with the time elapsed since [startTime], and past the
    end of the stream it resets [startTime]. *)
Lemma C9_live_manifest_uses_the_clock :
  (exists body,
     snd (serve join files handler3 "/live/manifest.m3u8" 0 0) = ManifestOK body
     /\ Segments body <> Segments playlist3)
  /\ snd (serve join files handler3 "/live/manifest.m3u8" 0 0)
     <> snd (serve join files handler3 "/live/manifest.m3u8" 20000000000 20000000000)
  /\ snd (serve join files (setStartTime 20000000000 handler3)
            "/live/manifest.m3u8" 20000000000 20000000000)
     <> snd (serve join files handler3 "/live/manifest.m3u8" 20000000000 20000000000)
  /\ startTime (fst (serve join files handler3 "/live/manifest.m3u8"
                       31000000000 31000000000))
     <> startTime handler3.
Proof.
  split; [|split; [|split]].
  - eexists. split; [reflexivity|]. vm_compute. discriminate.
  - vm_compute. discriminate.
  - vm_compute. discriminate.
  - vm_compute. discriminate.
Qed.

(** C9, amended: on the [/live/] routes every path other than
    [/live/manifest.m3u8] is answered by the file server with the file
    stored under the base directory, as it is: no window, no gate, no rate
    limit; such a request leaves the handler, hence [startTime], unchanged,
    and its answer is the same for every [startTime] and every instant.
    [/live/manifest.m3u8] is answered by [ServeManifest], as
    [/lhls/manifest.m3u8] is. *)
Theorem C9_live_files_ignore_the_clock
  (path_Join : string -> string -> string) (os_Open : string -> option File)
  (l : FakeLHLSManifestHandler) (p : string) (now now' : Time.Time) :
  Strings.HasPrefix p "/live/" = true ->
  p <> "/live/manifest.m3u8"%string ->
  serve path_Join os_Open l p now now'
  = (l, match os_Open (path_Join (baseDir l) (Strings.drop 6 p)) with
        | Some f => FileOK f
        | None => NotFound
        end)
  /\ (forall t n n',
        snd (serve path_Join os_Open (setStartTime t l) p n n')
        = snd (serve path_Join os_Open l p now now'))
  /\ serve path_Join os_Open l "/live/manifest.m3u8" now now'
     = serve path_Join os_Open l "/lhls/manifest.m3u8" now now'.
Proof.
  intros Hp Hne. split; [|split].
  - rewrite serve_live_file by assumption. reflexivity.
  - intros t n n'. rewrite !serve_live_file by assumption. reflexivity.
  - reflexivity.
Qed.

Lemma C9_live_files_ignore_the_clock_witness :
  Strings.HasPrefix "/live/seg001.ts" "/live/" = true
  /\ "/live/seg001.ts"%string <> "/live/manifest.m3u8"%string
  /\ serve join files handler3 "/live/seg001.ts" 3000000000 3000000000
     = (handler3, FileOK (mkFile (Some 1000) []))
  /\ forall t n n',
       snd (serve join files (setStartTime t handler3) "/live/seg001.ts" n n')
       = snd (serve join files handler3 "/live/seg001.ts" 3000000000 3000000000).
Proof.
  assert (Hp : Strings.HasPrefix "/live/seg001.ts" "/live/" = true) by reflexivity.
  assert (Hne : "/live/seg001.ts"%string <> "/live/manifest.m3u8"%string)
    by discriminate.
  split; [exact Hp | split; [exact Hne |]].
  destruct (C9_live_files_ignore_the_clock join files handler3 "/live/seg001.ts"
              3000000000 3000000000 Hp Hne) as (A & B & _).
  split; [exact A | exact B].
Defined.

(** ** C10: at most ten segments *)

(** C10: every manifest [ServeManifest] answers with holds at most ten
    segments: the first ten of the segments that the window rule admits for
    the stream time of the request, the others being dropped.  A request is
    answered with such a manifest or, when the loop runs out of segments
    into a nil slot, not at all. *)
Theorem C10_manifest_has_at_most_ten_segments
  (l : FakeLHLSManifestHandler) (now now' : Time.Time) :
  (exists body,
     snd (ServeManifest l now now') = ManifestOK body
     /\ (List.length (Segments body) <= 10)%nat
     /\ Segments body
        = firstn 10 (Spec.window (TargetDuration (playlist l))
                       (manifestStreamTime l now) 0%Q (Segments (playlist l))))
  \/ (snd (ServeManifest l now now') = Panic
      /\ runsOut (manifestStreamTime l now) 0%Q (Segments (playlist l)) = true
      /\ nilSlots (playlist l) <> 0%nat).
Proof.
  rewrite ServeManifest_unfold. cbn [snd].
  destruct (answerAt_cases (playlist l) (manifestStreamTime l now))
    as [(body & Hm & ->) | (Hm & ->)].
  - left. exists body. split; [reflexivity|].
    rewrite (manifestAt_Segments _ _ _ Hm). split; [|reflexivity].
    rewrite length_firstn. lia.
  - right. split; [reflexivity|]. apply manifestAt_None, Hm.
Qed.

(** * Further properties of the handlers *)

(** ** The mux *)

Lemma string_app_inj_length (a b r r' : string) :
  String.length a = String.length b -> (a ++ r = b ++ r')%string -> a = b.
Proof.
  revert b. induction a as [|x a IH]; intros [|y b] L E; simpl in *;
    try discriminate; [reflexivity|].
  injection E as -> E. f_equal. apply (IH b); [lia | exact E].
Qed.

(** A pattern that matches a path is a prefix of it. *)
Lemma pathMatch_prefix (k p : string) :
  pathMatch k p = true -> exists r, p = (k ++ r)%string.
Proof.
  unfold pathMatch. destruct (String.length k =? 0)%nat; [discriminate|].
  destruct (endsInSlash k).
  - intro H. exists (Strings.drop (String.length k) p). apply HasPrefix_app, H.
  - intro H. apply String.eqb_eq in H. subst p. exists EmptyString.
    clear. induction k; simpl; congruence.
Qed.

(** Two patterns of the same length that match the same path are equal. *)
Lemma pathMatch_same_length (k k' p : string) :
  pathMatch k p = true -> pathMatch k' p = true ->
  String.length k = String.length k' -> k = k'.
Proof.
  intros H H' L.
  destruct (pathMatch_prefix _ _ H) as [r E].
  destruct (pathMatch_prefix _ _ H') as [r' E'].
  apply (string_app_inj_length k k' r r' L). congruence.
Qed.

Lemma NoDup_keys_functional {A B} (m : list (A * B)) k v v' :
  NoDup (map fst m) -> In (k, v) m -> In (k, v') m -> v = v'.
Proof.
  induction m as [|[k0 v0] m IH]; simpl; intros N I I'; [contradiction|].
  inversion N as [|? ? Hn N']; subst.
  destruct I as [I | I], I' as [I' | I'].
  - congruence.
  - injection I as -> ->. exfalso. apply Hn.
    change k with (fst (k, v')). apply in_map, I'.
  - injection I' as -> ->. exfalso. apply Hn.
    change k with (fst (k, v)). apply in_map, I.
  - apply IH; assumption.
Qed.

Lemma muxMatch_None (p : string) (m : list (string * Handler)) :
  muxMatch m p None = None <->
  forall k h, In (k, h) m -> pathMatch k p = false.
Proof.
  assert (G : forall m best, muxMatch m p best = None ->
                best = None /\ forall k h, In (k, h) m -> pathMatch k p = false).
  { clear m. induction m as [|[k v] m IH]; intros best; simpl.
    - destruct best; [discriminate|]. intros _. split; [reflexivity | tauto].
    - destruct (pathMatch k p) eqn:E.
      + destruct best as [[n h0]|].
        * destruct (n <? String.length k)%nat; intro H; apply IH in H;
            destruct H; discriminate.
        * intro H. apply IH in H. destruct H; discriminate.
      + intro H. apply IH in H. destruct H as [-> H]. split; [reflexivity|].
        intros k' h' [I | I]; [congruence | eapply H; eauto]. }
  split.
  - intro H. apply G in H. tauto.
  - induction m as [|[k v] m IH]; simpl; intro H; [reflexivity|].
    rewrite (H k v) by (left; reflexivity). apply IH.
    intros k' h' I. apply (H k' h'). right. exact I.
Qed.

Lemma muxMatch_Some (p : string) (m : list (string * Handler)) : forall best h,
  muxMatch m p best = Some h ->
  (exists n, best = Some (n, h)
             /\ forall k' h', In (k', h') m -> pathMatch k' p = true ->
                              (String.length k' <= n)%nat)
  \/ (exists n, bestOf m p n h
                /\ forall n0 h0, best = Some (n0, h0) -> (n0 < n)%nat).
Proof.
  induction m as [|[k v] m IH]; intros best h; simpl.
  - destruct best as [[n h0]|]; simpl; [|discriminate].
    intro H. injection H as ->. left. exists n. split; [reflexivity | tauto].
  - assert (Fresh : muxMatch m p (Some (String.length k, v)) = Some h ->
                    pathMatch k p = true ->
                    exists n, bestOf ((k, v) :: m) p n h /\ (String.length k <= n)%nat).
    { intros H E. destruct (IH _ _ H) as [(n & Hb & Hm) | (n & [(k1 & I1 & M1 & L1) Hm] & Hb)].
      - injection Hb as <- <-. exists (String.length k). split; [|lia].
        split.
        + exists k. split; [left; reflexivity | split; [exact E | reflexivity]].
        + intros k' h' [I | I] M; [injection I as <- <-; lia | eapply Hm; eauto].
      - specialize (Hb _ _ eq_refl). exists n. split; [|lia].
        split.
        + exists k1. split; [right; exact I1 | split; assumption].
        + intros k' h' [I | I] M; [injection I as <- <-; lia | eapply Hm; eauto]. }
    assert (Keep : muxMatch m p best = Some h ->
                   (forall n0 h0, best = Some (n0, h0) ->
                                  pathMatch k p = true -> (String.length k <= n0)%nat) ->
                   (pathMatch k p = true -> best <> None) ->
                   (exists n, best = Some (n, h)
                      /\ forall k' h', In (k', h') ((k, v) :: m) ->
                                       pathMatch k' p = true ->
                                       (String.length k' <= n)%nat)
                   \/ (exists n, bestOf ((k, v) :: m) p n h
                         /\ forall n0 h0, best = Some (n0, h0) -> (n0 < n)%nat)).
    { intros H Hk Hn.
      destruct (IH _ _ H) as [(n & Hb & Hm) | (n & [(k1 & I1 & M1 & L1) Hm] & Hb)].
      - left. exists n. split; [exact Hb|].
        intros k' h' [I | I] M; [injection I as <- <-; eapply Hk; eauto | eapply Hm; eauto].
      - right. exists n. split; [|exact Hb]. split.
        + exists k1. split; [right; exact I1 | split; assumption].
        + intros k' h' [I | I] M; [|eapply Hm; eauto].
          injection I as <- <-.
          destruct best as [[n0 h0]|]; [|exfalso; apply (Hn M); reflexivity].
          specialize (Hk _ _ eq_refl M). specialize (Hb _ _ eq_refl). lia. }
    destruct (pathMatch k p) eqn:E.
    + destruct best as [[n0 h0]|].
      * destruct (n0 <? String.length k)%nat eqn:C.
        -- apply Nat.ltb_lt in C. intro H.
           destruct (Fresh H eq_refl) as (n & B & L).
           right. exists n. split; [exact B|].
           intros n1 h1 Hb. injection Hb as <- <-. lia.
        -- apply Nat.ltb_ge in C. intro H. apply Keep; [exact H | | discriminate].
           intros n1 h1 Hb _. injection Hb as <- <-. exact C.
      * intro H. destruct (Fresh H eq_refl) as (n & B & L).
        right. exists n. split; [exact B | discriminate].
    + intro H. apply Keep; [exact H | discriminate | discriminate].
Qed.

Lemma bestOf_Permutation (p : string) (m m' : list (string * Handler)) n h :
  Permutation m m' -> bestOf m p n h -> bestOf m' p n h.
Proof.
  intros P [(k & I & M & L) Hm]. split.
  - exists k. split; [eapply Permutation_in; eauto | split; assumption].
  - intros k' h' I' M'. apply (Hm k' h'); [|exact M'].
    eapply Permutation_in; [apply Permutation_sym; exact P | exact I'].
Qed.

Lemma bestOf_unique (p : string) (m : list (string * Handler)) n h n' h' :
  NoDup (map fst m) -> bestOf m p n h -> bestOf m p n' h' -> h = h'.
Proof.
  intros N [(k & I & M & L) Hm] [(k' & I' & M' & L') Hm'].
  pose proof (Hm _ _ I' M'). pose proof (Hm' _ _ I M).
  assert (k = k') by (apply (pathMatch_same_length k k' p); [assumption | assumption | lia]).
  subst k'. eapply NoDup_keys_functional; eauto.
Qed.

(** The handler [ServeMux] picks does not depend on the order in which the
    patterns are met, as long as no pattern is registered twice. *)
Lemma muxMatch_Permutation (m m' : list (string * Handler)) (p : string) :
  NoDup (map fst m) -> Permutation m m' ->
  muxMatch m' p None = muxMatch m p None.
Proof.
  intros N P.
  destruct (muxMatch m p None) as [h|] eqn:E.
  - destruct (muxMatch_Some p m None h E) as [(n & Hb & _) | (n & B & _)];
      [discriminate|].
    destruct (muxMatch m' p None) as [h'|] eqn:E'.
    + destruct (muxMatch_Some p m' None h' E') as [(n' & Hb' & _) | (n' & B' & _)];
        [discriminate|].
      f_equal. apply (bestOf_unique p m n' h' n h N); [|exact B].
      apply (bestOf_Permutation p m' m); [apply Permutation_sym; exact P | exact B'].
    + exfalso. destruct B as [(k & I & M & _) _].
      rewrite muxMatch_None in E'.
      rewrite (E' k h) in M; [discriminate|].
      eapply Permutation_in; eauto.
  - apply muxMatch_None. intros k h I.
    rewrite muxMatch_None in E. apply (E k h).
    eapply Permutation_in; [apply Permutation_sym; exact P | exact I].
Qed.

Lemma routes_NoDup : NoDup (map fst routes).
Proof.
  unfold routes. simpl.
  repeat (constructor; [simpl; intro H; repeat (destruct H as [H | H]; [discriminate H|]); exact H|]).
  constructor.
Defined.

(** X1: the routes of [main] are kept in a Go map, whose iteration order
    is not fixed; the handler a path is sent to is the same in whatever
    order the four patterns are met. *)
Theorem X1_routing_is_independent_of_map_order
  (m' : list (string * Handler)) (p : string) :
  Permutation routes m' ->
  muxMatch m' p None = muxMatch routes p None.
Proof.
  intro P. apply muxMatch_Permutation; [exact routes_NoDup | exact P].
Qed.

Lemma X1_routing_is_independent_of_map_order_witness :
  Permutation routes (rev routes)
  /\ muxMatch (rev routes) "/live/manifest.m3u8" None
     = muxMatch routes "/live/manifest.m3u8" None.
Proof.
  split; [apply Permutation_rev|].
  exact (X1_routing_is_independent_of_map_order (rev routes) "/live/manifest.m3u8"
           (Permutation_rev routes)).
Defined.

Section Dispatch.

Variable path_Join : string -> string -> string.
Variable os_Open : string -> option File.

Lemma HasPrefix_of_app (k r : string) : Strings.HasPrefix (k ++ r) k = true.
Proof.
  induction k as [|a k IH]; simpl; [reflexivity|].
  rewrite Ascii.eqb_refl. exact IH.
Qed.

(** X2: what the server answers outside the trees [/live/] and [/lhls/].
    A path that is not clean is redirected to its clean form; of the clean
    paths, [/live] and [/lhls] are redirected to their tree and every other
    one matches no pattern and is answered 404.  The handler is left as it
    is. *)
Theorem X2_outside_the_trees
  (cleanPath : string -> string)
  (l : FakeLHLSManifestHandler) (p : string) (now now' : Time.Time) :
  Strings.HasPrefix p "/live/" = false ->
  Strings.HasPrefix p "/lhls/" = false ->
  ServeMux_ServeHTTP path_Join os_Open cleanPath l p now now'
  = (l, if String.eqb (cleanPath p) p
        then if String.eqb "/live" p then MovedPermanently "/live/"
             else if String.eqb "/lhls" p then MovedPermanently "/lhls/"
             else NotFound
        else MovedPermanently (cleanPath p)).
Proof.
  intros Hlive Hlhls. unfold ServeMux_ServeHTTP.
  destruct (String.eqb (cleanPath p) p); [|reflexivity].
  assert (M1 : pathMatch "/live/manifest.m3u8" p = false).
  { destruct (pathMatch "/live/manifest.m3u8" p) eqn:M; [exfalso | reflexivity].
    destruct (pathMatch_prefix _ _ M) as [r ->]. discriminate. }
  assert (M3 : pathMatch "/lhls/manifest.m3u8" p = false).
  { destruct (pathMatch "/lhls/manifest.m3u8" p) eqn:M; [exfalso | reflexivity].
    destruct (pathMatch_prefix _ _ M) as [r ->]. discriminate. }
  assert (M2 : pathMatch "/live/" p = false) by exact Hlive.
  assert (M4 : pathMatch "/lhls/" p = false) by exact Hlhls.
  change (String.eqb "/live" p) with (pathMatch "/live" p).
  change (String.eqb "/lhls" p) with (pathMatch "/lhls" p).
  unfold serve, routes, muxMatch. rewrite M1, M2, M3, M4.
  destruct (pathMatch "/live" p) eqn:M5.
  - assert (p = "/live"%string) as -> by (symmetry; apply String.eqb_eq; exact M5).
    reflexivity.
  - destruct (pathMatch "/lhls" p); reflexivity.
Qed.

(** X3: under [/lhls/], every path that ends in [manifest.m3u8] is answered
    with the manifest, whatever lies between: a segment whose URI ends in
    [manifest.m3u8] cannot be fetched there. *)
Theorem X3_manifest_suffix_shadows_segments
  (l : FakeLHLSManifestHandler) (url : string) (now now' : Time.Time) :
  Strings.HasSuffix ("/lhls/" ++ url) "manifest.m3u8" = true ->
  serve path_Join os_Open l ("/lhls/" ++ url) now now' = ServeManifest l now now'.
Proof.
  intro Hs.
  assert (M : muxMatch routes ("/lhls/" ++ url) None = Some lhlsHandler).
  { assert (M1 : pathMatch "/live/manifest.m3u8" ("/lhls/" ++ url) = false)
      by reflexivity.
    assert (M2 : pathMatch "/live/" ("/lhls/" ++ url) = false) by reflexivity.
    assert (M4 : pathMatch "/lhls/" ("/lhls/" ++ url) = true) by reflexivity.
    assert (M5 : pathMatch "/live" ("/lhls/" ++ url) = false) by reflexivity.
    assert (M6 : pathMatch "/lhls" ("/lhls/" ++ url) = false) by reflexivity.
    unfold routes, muxMatch. rewrite M1, M2, M4, M5, M6.
    destruct (pathMatch "/lhls/manifest.m3u8" ("/lhls/" ++ url)); reflexivity. }
  unfold serve, ServeHTTP. rewrite M, Hs. reflexivity.
Qed.

(** Every answer of the mux is an answer of the file server, of
    [ServeHTTP], or 404. *)
Lemma serve_cases l p now now' :
  serve path_Join os_Open l p now now' = ServeHTTP path_Join os_Open l p now now'
  \/ fst (serve path_Join os_Open l p now now') = l.
Proof.
  unfold serve. destruct (muxMatch routes p None) as [[| |]|]; auto.
Qed.

(** X4: no request changes the handler's [duration], [playlist] or
    [baseDir]; [startTime] changes only on a path that ends in
    [manifest.m3u8], only when the stream time is past [duration], and then
    to the instant [time.Now] observes.  Segment and file requests never
    move the clock. *)
Theorem X4_requests_change_startTime_only
  (l : FakeLHLSManifestHandler) (p : string) (now now' : Time.Time) :
  let l' := fst (serve path_Join os_Open l p now now') in
  duration l' = duration l /\ playlist l' = playlist l /\ baseDir l' = baseDir l
  /\ (l' = l
      \/ (l' = setStartTime now' l
          /\ Strings.HasSuffix p "manifest.m3u8" = true
          /\ (duration l < Time.Seconds (Time.Since now (startTime l)))%Q)).
Proof.
  intro l'. subst l'.
  destruct (serve_cases l p now now') as [E | E].
  - rewrite E. unfold ServeHTTP.
    destruct (Strings.HasSuffix p "manifest.m3u8") eqn:S.
    + rewrite ServeManifest_unfold. simpl fst.
      destruct (Float64.ltb (duration l) _) eqn:L.
      * apply ltb_true in L. simpl. repeat split; try reflexivity.
        right. repeat split; auto.
      * simpl. repeat split; auto.
    + destruct (Strings.HasPrefix p "/lhls/"); simpl; repeat split; auto.
  - rewrite E. repeat split; auto.
Qed.

End Dispatch.

Lemma X2_outside_the_trees_witness :
  Strings.HasPrefix "/live" "/live/" = false
  /\ Strings.HasPrefix "/live" "/lhls/" = false
  /\ ServeMux_ServeHTTP join files (fun p => p) handler3 "/live" 0 0
     = (handler3, MovedPermanently "/live/")
  /\ ServeMux_ServeHTTP join files (fun p => p) handler3 "/index.html" 0 0
     = (handler3, NotFound).
Proof.
  split; [reflexivity | split; [reflexivity | split]].
  - exact (X2_outside_the_trees join files (fun p => p) handler3 "/live" 0 0
             eq_refl eq_refl).
  - exact (X2_outside_the_trees join files (fun p => p) handler3 "/index.html" 0 0
             eq_refl eq_refl).
Defined.

Lemma X3_manifest_suffix_shadows_segments_witness :
  Strings.HasSuffix ("/lhls/" ++ "extra/xmanifest.m3u8") "manifest.m3u8" = true
  /\ serve join files handler3 ("/lhls/" ++ "extra/xmanifest.m3u8") 0 0
     = ServeManifest handler3 0 0.
Proof.
  split; [reflexivity|].
  exact (X3_manifest_suffix_shadows_segments join files handler3
           "extra/xmanifest.m3u8" 0 0 eq_refl).
Defined.

(** ** Start offsets *)

Lemma advance_app c (a b : list MediaSegment) :
  Spec.advance c (a ++ b) = Spec.advance (Spec.advance c a) b.
Proof. unfold Spec.advance. apply fold_left_app. Qed.

Lemma firstn_S_nth_error {A} (l : list A) : forall k x,
  nth_error l k = Some x -> firstn (S k) l = firstn k l ++ [x].
Proof.
  induction l as [|a l IH]; intros [|k] x H; simpl in *; try discriminate.
  - injection H as ->. reflexivity.
  - f_equal. apply IH, H.
Qed.

(** The cursor after a segment is its start offset plus its duration. *)
Lemma cursorAt_startOffset segs k seg :
  nth_error segs k = Some seg ->
  Spec.cursorAt segs k = (Spec.startOffset segs k + Duration seg)%Q.
Proof.
  intro H. unfold Spec.cursorAt, Spec.startOffset.
  rewrite (firstn_S_nth_error segs k seg H), advance_app. reflexivity.
Qed.

Lemma positive_skipn segs : forall k, positive segs -> positive (skipn k segs).
Proof.
  induction segs as [|seg rest IH]; intros [|k] P; simpl; try assumption.
  apply IH. inversion P; assumption.
Qed.

Lemma firstn_plus {A} (l : list A) : forall j n,
  firstn (j + n) l = firstn j l ++ firstn n (skipn j l).
Proof.
  induction l as [|a l IH]; intros [|j] n; simpl; try reflexivity.
  - now rewrite firstn_nil.
  - f_equal. apply IH.
Qed.

Lemma startOffset_mono segs j k :
  positive segs -> (j <= k)%nat ->
  (Spec.startOffset segs j <= Spec.startOffset segs k)%Q.
Proof.
  intros P L. unfold Spec.startOffset.
  replace k with (j + (k - j))%nat by lia.
  rewrite firstn_plus, advance_app.
  apply advance_firstn_le, positive_skipn, P.
Qed.

Lemma startOffset_le_total segs k :
  positive segs -> (Spec.startOffset segs k <= totalDuration segs)%Q.
Proof.
  intro P. unfold Spec.startOffset.
  rewrite <- (firstn_skipn k segs) at 2.
  change (totalDuration (firstn k segs ++ skipn k segs))
    with (Spec.advance 0 (firstn k segs ++ skipn k segs)).
  rewrite advance_app. apply advance_le, positive_skipn, P.
Qed.

(** ** [ServeSegment]: answers *)

Lemma EqualFold_eq_of_lowercase (s u u' : string) :
  lowercase u = lowercase u' -> Strings.EqualFold s u = Strings.EqualFold s u'.
Proof.
  intro E.
  destruct (Strings.EqualFold s u) eqn:A; destruct (Strings.EqualFold s u') eqn:B;
    try reflexivity.
  - apply EqualFold_lowercase in A. rewrite E in A.
    apply EqualFold_lowercase in A. congruence.
  - apply EqualFold_lowercase in B. rewrite <- E in B.
    apply EqualFold_lowercase in B. congruence.
Qed.

(** X5: two requested URIs that differ in letter case only resolve alike:
    to the same segment of the playlist and the same start offset, or both
    to no segment, or both to the panic of a nil slot. *)
Theorem X5_resolution_ignores_case
  (segs : list (option MediaSegment)) (url url' : string) (c : Q) :
  lowercase url = lowercase url' ->
  findSegment segs url c = findSegment segs url' c.
Proof.
  intro E. revert c. induction segs as [|[seg|] rest IH]; intro c; simpl;
    [reflexivity | | reflexivity].
  rewrite (EqualFold_eq_of_lowercase (URI seg) url url' E).
  destruct (Strings.EqualFold (URI seg) url'); [reflexivity | apply IH].
Qed.

Lemma X5_resolution_ignores_case_witness :
  lowercase "Seg002.TS" = lowercase "seg002.ts"
  /\ findSegment (slots playlist3) "Seg002.TS" 0%Q
     = findSegment (slots playlist3) "seg002.ts" 0%Q.
Proof.
  split; [reflexivity|].
  exact (X5_resolution_ignores_case (slots playlist3) "Seg002.TS" "seg002.ts" 0%Q
           eq_refl).
Defined.

Section Answers.

Variable path_Join : string -> string -> string.
Variable os_Open : string -> option File.

(** X6: the three answers of [ServeSegment] to [/lhls/<url>].  It serves
    the segment exactly when the file of that name opens, its size can be
    read and some segment of the playlist matches the URI; it panics (on
    [curSegment.URI] of a nil slot) exactly when the file opens, its size
    can be read, no segment matches and the slice has a nil slot; in every
    other case it answers 404. *)
Theorem X6_segment_served_iff
  (l : FakeLHLSManifestHandler) (url : string) (now : Time.Time) :
  ((exists d, ServeSegment path_Join os_Open l ("/lhls/" ++ url) now = SegmentOK d)
   <-> exists file size k,
         os_Open (path_Join (baseDir l) url) = Some file
         /\ statSize file = Some size
         /\ Spec.firstMatch url (Segments (playlist l)) = Some k)
  /\ (ServeSegment path_Join os_Open l ("/lhls/" ++ url) now = Panic
      <-> exists file size,
            os_Open (path_Join (baseDir l) url) = Some file
            /\ statSize file = Some size
            /\ Spec.firstMatch url (Segments (playlist l)) = None
            /\ nilSlots (playlist l) <> 0%nat)
  /\ ((exists d, ServeSegment path_Join os_Open l ("/lhls/" ++ url) now = SegmentOK d)
      \/ ServeSegment path_Join os_Open l ("/lhls/" ++ url) now = Panic
      \/ ServeSegment path_Join os_Open l ("/lhls/" ++ url) now = NotFound).
Proof.
  destruct (Spec.firstMatch url (Segments (playlist l))) as [k|] eqn:Hm.
  - destruct (proj1 (firstMatch_Some _ _ _) Hm) as [(seg & Hn & _) _].
    destruct (os_Open (path_Join (baseDir l) url)) as [file|] eqn:Ho.
    + destruct (statSize file) as [size|] eqn:Hs.
      * rewrite (ServeSegment_found path_Join os_Open l url now file size k seg
                   Ho Hs Hm Hn).
        split; [|split; [|left; eexists; reflexivity]].
        -- split; [intros _; exists file, size, k; auto | intros _; eexists; reflexivity].
        -- split; [discriminate | intros (f & s & _ & _ & H & _); discriminate].
      * assert (E : ServeSegment path_Join os_Open l ("/lhls/" ++ url) now = NotFound).
        { unfold ServeSegment.
          change (Strings.drop 6 ("/lhls/" ++ url)) with url.
          change (String.length ("/lhls/" ++ url) <? 6)%nat with false.
          cbv iota. rewrite Ho, Hs. reflexivity. }
        rewrite E. split; [|split; [|right; right; reflexivity]].
        -- split; [intros [d H]; discriminate|].
           intros (f & s & k' & Hf & Hs' & _). congruence.
        -- split; [discriminate | intros (f & s & _ & _ & H & _); discriminate].
    + assert (E : ServeSegment path_Join os_Open l ("/lhls/" ++ url) now = NotFound).
      { unfold ServeSegment.
        change (Strings.drop 6 ("/lhls/" ++ url)) with url.
        change (String.length ("/lhls/" ++ url) <? 6)%nat with false.
        cbv iota. rewrite Ho. reflexivity. }
      rewrite E. split; [|split; [|right; right; reflexivity]].
      * split; [intros [d H]; discriminate|].
        intros (f & s & k' & Hf & _). discriminate.
      * split; [discriminate | intros (f & s & _ & _ & H & _); discriminate].
  - rewrite (ServeSegment_unknown path_Join os_Open l url now Hm).
    destruct (os_Open (path_Join (baseDir l) url)) as [file|] eqn:Ho.
    + destruct (statSize file) as [size|] eqn:Hs.
      * destruct (nilSlots (playlist l) =? 0)%nat eqn:N.
        -- apply Nat.eqb_eq in N.
           split; [|split; [|right; right; reflexivity]].
           ++ split; [intros [d H]; discriminate|].
              intros (f & s & k & _ & _ & H). discriminate.
           ++ split; [discriminate | intros (f & s & _ & _ & _ & H); contradiction].
        -- apply Nat.eqb_neq in N.
           split; [|split; [|right; left; reflexivity]].
           ++ split; [intros [d H]; discriminate|].
              intros (f & s & k & _ & _ & H). discriminate.
           ++ split; [intros _; exists file, size; auto | reflexivity].
      * split; [|split; [|right; right; reflexivity]].
        -- split; [intros [d H]; discriminate|].
           intros (f & s & k & _ & _ & H). discriminate.
        -- split; [discriminate | intros (f & s & Hf & Hs' & _)]. congruence.
    + split; [|split; [|right; right; reflexivity]].
      * split; [intros [d H]; discriminate|].
        intros (f & s & k & _ & _ & H). discriminate.
      * split; [discriminate | intros (f & s & Hf & _); discriminate].
Qed.

(** X7: a segment that starts in the future (by less than 9e9 seconds, so
    that the [int64] product does not wrap) is waited for a whole number [n]
    of seconds, the distance rounded down: [n <= startOffset - elapsed <
    n + 1]; it is then shaped over its own duration (one second at
    least). *)
Theorem X7_future_segment_waits_whole_seconds
  (l : FakeLHLSManifestHandler) (url : string) (now : Time.Time)
  (file : File) (size : Z) (k : nat) (seg : MediaSegment) :
  os_Open (path_Join (baseDir l) url) = Some file ->
  statSize file = Some size ->
  Spec.firstMatch url (Segments (playlist l)) = Some k ->
  nth_error (Segments (playlist l)) k = Some seg ->
  let elapsed := Time.Seconds (Time.Since now (startTime l)) in
  let startOffset := Spec.startOffset (Segments (playlist l)) k in
  (elapsed < startOffset)%Q -> (startOffset - elapsed < 9000000000)%Q ->
  exists d n,
    ServeSegment path_Join os_Open l ("/lhls/" ++ url) now = SegmentOK d
    /\ slept d = Some (n * Time.Second)
    /\ (inject_Z n <= startOffset - elapsed)%Q
    /\ (startOffset - elapsed < inject_Z n + 1)%Q
    /\ (rateDuration d == Qmax (Duration seg) 1)%Q.
Proof.
  intros Ho Hs Hm Hn elapsed startOffset Hlt Hb.
  rewrite (ServeSegment_found path_Join os_Open l url now file size k seg Ho Hs Hm Hn).
  fold startOffset. fold elapsed. rewrite (gate_future _ _ Hlt Hb).
  eexists. exists (Qfloor (startOffset - elapsed)).
  split; [reflexivity|]. cbn [slept rateDuration fst snd].
  split; [reflexivity|].
  split; [apply Qfloor_le|].
  split.
  - pose proof (Qlt_floor (startOffset - elapsed)) as F.
    rewrite inject_Z_plus in F. exact F.
  - rewrite Max_Qmax.
    assert (E : (startOffset + Duration seg - startOffset == Duration seg)%Q) by ring.
    rewrite E. reflexivity.
Qed.

(** X8: the time a segment is shaped over is between one second and the
    segment's duration (or one second, if that is longer): a file of
    [size >= 0] bytes is sent at [size / max(duration, 1)] bytes per second
    at least and at [size] bytes per second at most. *)
Theorem X8_rate_between_real_time_and_one_second
  (l : FakeLHLSManifestHandler) (url : string) (now : Time.Time)
  (file : File) (size : Z) (k : nat) (seg : MediaSegment) :
  os_Open (path_Join (baseDir l) url) = Some file ->
  statSize file = Some size ->
  Spec.firstMatch url (Segments (playlist l)) = Some k ->
  nth_error (Segments (playlist l)) k = Some seg ->
  0 <= size ->
  exists d,
    ServeSegment path_Join os_Open l ("/lhls/" ++ url) now = SegmentOK d
    /\ (1 <= rateDuration d)%Q
    /\ (rateDuration d <= Qmax (Duration seg) 1)%Q
    /\ (inject_Z size / Qmax (Duration seg) 1 <= rateLimit d)%Q
    /\ (rateLimit d <= inject_Z size)%Q.
Proof.
  intros Ho Hs Hm Hn Hsize.
  rewrite (ServeSegment_found path_Join os_Open l url now file size k seg Ho Hs Hm Hn).
  set (start := Spec.startOffset (Segments (playlist l)) k).
  set (elapsed := Time.Seconds (Time.Since now (startTime l))).
  set (cur := snd (gate start elapsed)).
  assert (Hcur : (start <= cur)%Q).
  { unfold cur, gate. cmp start elapsed; simpl; lra. }
  set (rd := Float64.Max (start + Duration seg - cur)%Q 1%Q).
  assert (R1 : (1 <= rd)%Q) by apply Max_ge_r.
  assert (M1 : (1 <= Qmax (Duration seg) 1)%Q) by apply Q.le_max_r.
  assert (R2 : (rd <= Qmax (Duration seg) 1)%Q).
  { unfold rd, Float64.Max. cmp (start + Duration seg - cur)%Q 1%Q.
    - pose proof (Q.le_max_l (Duration seg) 1). lra.
    - exact M1. }
  assert (S0 : (0 <= inject_Z size)%Q).
  { change 0%Q with (inject_Z 0). rewrite <- Zle_Qle. exact Hsize. }
  eexists. split; [reflexivity|]. cbn [rateDuration rateLimit]. fold cur. fold rd.
  unfold Float64.ofInt.
  split; [exact R1 | split; [exact R2 | split]].
  - apply Qle_shift_div_r; [lra|].
    assert (E : (inject_Z size / rd * Qmax (Duration seg) 1
                 == inject_Z size * (Qmax (Duration seg) 1 / rd))%Q)
      by (field; lra).
    rewrite E.
    assert (D : (1 <= Qmax (Duration seg) 1 / rd)%Q)
      by (apply Qle_shift_div_l; lra).
    nra.
  - apply Qle_shift_div_r; [lra | nra].
Qed.

(** X9: once the stream time has reached the end of the playlist and until
    a manifest request resets the clock, no segment is waited for and every
    segment is shaped over one second: the rate is the size of the file per
    second. *)
Theorem X9_after_the_end_no_gate
  (l : FakeLHLSManifestHandler) (url : string) (now : Time.Time)
  (file : File) (size : Z) (k : nat) (seg : MediaSegment) :
  os_Open (path_Join (baseDir l) url) = Some file ->
  statSize file = Some size ->
  Spec.firstMatch url (Segments (playlist l)) = Some k ->
  nth_error (Segments (playlist l)) k = Some seg ->
  positive (Segments (playlist l)) ->
  (totalDuration (Segments (playlist l))
   <= Time.Seconds (Time.Since now (startTime l)))%Q ->
  exists d,
    ServeSegment path_Join os_Open l ("/lhls/" ++ url) now = SegmentOK d
    /\ slept d = None
    /\ rateDuration d = 1%Q
    /\ (rateLimit d == inject_Z size)%Q.
Proof.
  intros Ho Hs Hm Hn P Hend.
  rewrite (ServeSegment_found path_Join os_Open l url now file size k seg Ho Hs Hm Hn).
  set (start := Spec.startOffset (Segments (playlist l)) k).
  set (elapsed := Time.Seconds (Time.Since now (startTime l))) in *.
  assert (C : (start + Duration seg <= totalDuration (Segments (playlist l)))%Q).
  { unfold start. rewrite <- (cursorAt_startOffset _ _ _ Hn).
    apply (startOffset_le_total _ (S k) P). }
  assert (D : (0 < Duration seg)%Q).
  { unfold positive in P. rewrite Forall_forall in P.
    apply P. eapply nth_error_In; eauto. }
  rewrite gate_past by lra. cbn [fst snd].
  assert (M : Float64.Max (start + Duration seg - elapsed)%Q 1%Q = 1%Q).
  { unfold Float64.Max. cmp (start + Duration seg - elapsed)%Q 1%Q; [lra | reflexivity]. }
  rewrite M. eexists. split; [reflexivity|]. cbn [slept rateDuration rateLimit].
  split; [reflexivity | split; [reflexivity|]].
  unfold Float64.ofInt. field.
Qed.

End Answers.

Lemma X6_segment_served_iff_witness :
  (exists d, ServeSegment join storedFiles handler3 ("/lhls/" ++ "seg001.ts") 0
             = SegmentOK d)
  /\ ServeSegment join storedFiles handler3 ("/lhls/" ++ "list.m3u8") 0 = Panic.
Proof.
  split.
  - apply (X6_segment_served_iff join storedFiles handler3 "seg001.ts" 0).
    exists (mkFile (Some 1000) []), 1000, 1%nat.
    split; [reflexivity | split; reflexivity].
  - apply (X6_segment_served_iff join storedFiles handler3 "list.m3u8" 0).
    exists (mkFile (Some 1000) []), 1000.
    split; [reflexivity | split; [reflexivity | split; [reflexivity | discriminate]]].
Defined.

Lemma X7_future_segment_waits_whole_seconds_witness :
  let elapsed := Time.Seconds (Time.Since 3500000000 (startTime handler3)) in
  let startOffset := Spec.startOffset (Segments (playlist handler3)) 2 in
  (elapsed < startOffset)%Q /\ (startOffset - elapsed < 9000000000)%Q
  /\ exists d n,
       ServeSegment join files handler3 ("/lhls/" ++ "seg002.ts") 3500000000
       = SegmentOK d
       /\ slept d = Some (n * Time.Second)
       /\ (inject_Z n <= startOffset - elapsed)%Q
       /\ (startOffset - elapsed < inject_Z n + 1)%Q
       /\ (rateDuration d == Qmax (Duration (mkSegment "seg002.ts" 10%Q)) 1)%Q.
Proof.
  intros elapsed startOffset.
  assert (A : (elapsed < startOffset)%Q) by reflexivity.
  assert (B : (startOffset - elapsed < 9000000000)%Q) by reflexivity.
  split; [exact A | split; [exact B|]].
  exact (X7_future_segment_waits_whole_seconds join files handler3 "seg002.ts"
           3500000000 (mkFile (Some 1000) []) 1000 2 (mkSegment "seg002.ts" 10%Q)
           eq_refl eq_refl eq_refl eq_refl A B).
Defined.

Lemma X8_rate_between_real_time_and_one_second_witness :
  0 <= 1000
  /\ exists d,
       ServeSegment join files handler3 ("/lhls/" ++ "seg001.ts") 14000000000
       = SegmentOK d
       /\ (1 <= rateDuration d)%Q
       /\ (rateDuration d <= Qmax (Duration (mkSegment "seg001.ts" 10%Q)) 1)%Q
       /\ (inject_Z 1000 / Qmax (Duration (mkSegment "seg001.ts" 10%Q)) 1
           <= rateLimit d)%Q
       /\ (rateLimit d <= inject_Z 1000)%Q.
Proof.
  assert (A : 0 <= 1000) by lia.
  split; [exact A|].
  exact (X8_rate_between_real_time_and_one_second join files handler3 "seg001.ts"
           14000000000 (mkFile (Some 1000) []) 1000 1 (mkSegment "seg001.ts" 10%Q)
           eq_refl eq_refl eq_refl eq_refl A).
Defined.

Lemma X9_after_the_end_no_gate_witness :
  positive (Segments (playlist handler3))
  /\ (totalDuration (Segments (playlist handler3))
      <= Time.Seconds (Time.Since 45000000000%Z (startTime handler3)))%Q
  /\ exists d,
       ServeSegment join files handler3 ("/lhls/" ++ "seg000.ts") 45000000000
       = SegmentOK d
       /\ slept d = None
       /\ rateDuration d = 1%Q
       /\ (rateLimit d == inject_Z 1000)%Q.
Proof.
  assert (P : positive (Segments (playlist handler3)))
    by (simpl; unfold positive, segs3; repeat constructor).
  assert (E : (totalDuration (Segments (playlist handler3))
               <= Time.Seconds (Time.Since 45000000000%Z (startTime handler3)))%Q)
    by (vm_compute; discriminate).
  split; [exact P | split; [exact E|]].
  exact (X9_after_the_end_no_gate join files handler3 "seg000.ts" 45000000000
           (mkFile (Some 1000) []) 1000 0 (mkSegment "seg000.ts" 10%Q)
           eq_refl eq_refl eq_refl eq_refl P E).
Defined.

(** ** [ServeManifest]: what the manifest lists *)

Section Listing.

Variables td t : Float64.float64.

(** The first included segment is the head of the window. *)
Lemma firstIncluded_head segs : forall c i k,
  Spec.firstIncluded td t c i segs = Some k ->
  exists n seg rest,
    k = i + Z.of_nat n /\ nth_error segs n = Some seg
    /\ Spec.window td t c segs = seg :: rest.
Proof.
  induction segs as [|seg0 segs IH]; intros c i k; simpl; [discriminate|].
  unfold Spec.futureHorizon.
  destruct (Float64.gtb (c + Duration seg0 + 3 * td)%Q t).
  - intro H. injection H as <-. exists 0%nat, seg0. eexists.
    split; [simpl; lia | split; reflexivity].
  - destruct (Float64.gtb (c + Duration seg0)%Q (t + 5)%Q); [discriminate|].
    intro H. destruct (IH _ _ _ H) as (n & seg & rest & -> & Hn & Hw).
    exists (S n), seg, rest. split; [lia | split; assumption].
Qed.

(** With a positive target duration some segment is included for every
    stream time up to the end of the playlist. *)
Lemma firstIncluded_Some_upto segs : forall c i,
  (0 < td)%Q ->
  (c + 3 * td <= t)%Q \/ segs <> [] ->
  (t <= Spec.advance c segs)%Q ->
  Spec.firstIncluded td t c i segs <> None.
Proof.
  induction segs as [|seg rest IH]; intros c i Htd Hc Ht; simpl in *.
  - destruct Hc as [Hc | Hc]; [lra | congruence].
  - unfold Spec.futureHorizon.
    cmp (c + Duration seg + 3 * td)%Q t; [discriminate|].
    cmp (c + Duration seg)%Q (t + 5)%Q; [lra|].
    apply IH; [exact Htd | left; lra | exact Ht].
Qed.

End Listing.

(** X10: the sequence number of every manifest that [ServeManifest] answers
    with is the playlist index of the first segment the manifest lists (as
    a [uint64]); a manifest that lists no segment has the sentinel
    [2^64 - 1]. *)
Theorem X10_sequence_number_is_index_of_first_listed
  (l l' : FakeLHLSManifestHandler) (now now' : Time.Time) (body : MediaPlaylist) :
  ServeManifest l now now' = (l', ManifestOK body) ->
  match Segments body with
  | [] => SeqNo body = 2 ^ 64 - 1
  | seg :: _ =>
      exists n, nth_error (Segments (playlist l)) n = Some seg
                /\ SeqNo body = Int.uint64 (Z.of_nat n)
  end.
Proof.
  rewrite ServeManifest_unfold. intro H. injection H as _ H.
  destruct (answerAt_cases (playlist l) (manifestStreamTime l now))
    as [(b & Hm & E) | (_ & E)]; rewrite E in H; [|discriminate].
  injection H as ->.
  destruct (manifestAt_Some _ _ _ Hm) as [-> ->].
  destruct (Spec.firstIncluded _ _ 0 0 _) as [k|] eqn:F.
  - destruct (firstIncluded_head _ _ _ _ _ _ F) as (n & seg & rest & -> & Hn & ->).
    cbn [firstn]. exists n. split; [exact Hn | reflexivity].
  - apply firstIncluded_None in F. rewrite F. reflexivity.
Qed.

Lemma X10_sequence_number_is_index_of_first_listed_witness :
  ServeManifest handler3 6000000000 0
  = (handler3, ManifestOK (mkPlaylist 10%Q 0 (firstn 2 segs3) 10 10))
  /\ exists n, nth_error (Segments (playlist handler3)) n
               = Some (mkSegment "seg000.ts" 10%Q)
               /\ SeqNo (mkPlaylist 10%Q 0 (firstn 2 segs3) 10 10)
                  = Int.uint64 (Z.of_nat n).
Proof.
  assert (E : ServeManifest handler3 6000000000 0
              = (handler3, ManifestOK (mkPlaylist 10%Q 0 (firstn 2 segs3) 10 10)))
    by (rewrite ServeManifest_unfold; reflexivity).
  split; [exact E|].
  exact (X10_sequence_number_is_index_of_first_listed handler3 handler3
           6000000000 0 (mkPlaylist 10%Q 0 (firstn 2 segs3) 10 10) E).
Defined.

(** X11: for a handler as [main] builds it ([duration] is the sum of the
    durations) on a playlist that is not empty, with positive durations and
    a positive target duration, [ServeManifest] never answers with an empty
    manifest, whatever the clock reads: the answer is a manifest that lists
    at least one segment or, when the loop runs out into a nil slot, the
    panic; it is a manifest whenever the stream time is more than five
    seconds before the end. *)
Theorem X11_manifest_never_empty
  (l : FakeLHLSManifestHandler) (now now' : Time.Time) :
  duration l = totalDuration (Segments (playlist l)) ->
  positive (Segments (playlist l)) ->
  Segments (playlist l) <> [] ->
  (0 < TargetDuration (playlist l))%Q ->
  ((exists body,
      snd (ServeManifest l now now') = ManifestOK body /\ Segments body <> [])
   \/ snd (ServeManifest l now now') = Panic)
  /\ (startTime l <= now ->
      (manifestStreamTime l now + futureTime
       < totalDuration (Segments (playlist l)))%Q ->
      exists body,
        snd (ServeManifest l now now') = ManifestOK body /\ Segments body <> []).
Proof.
  intros Hd P Hne Htd.
  rewrite ServeManifest_unfold. cbn [snd].
  assert (Ht : (manifestStreamTime l now <= Spec.advance 0 (Segments (playlist l)))%Q).
  { unfold manifestStreamTime.
    destruct (Float64.ltb (duration l) _) eqn:L.
    - apply (advance_le _ 0%Q P).
    - apply ltb_false in L. rewrite Hd in L. exact L. }
  assert (NE : forall body,
             manifestAt (playlist l) (manifestStreamTime l now) = Some body ->
             Segments body <> []).
  { intros body Hm. rewrite (manifestAt_Segments _ _ _ Hm).
    pose proof (firstIncluded_Some_upto (TargetDuration (playlist l))
                  (manifestStreamTime l now) (Segments (playlist l)) 0%Q 0 Htd
                  (or_intror Hne) Ht) as S.
    destruct (Spec.firstIncluded _ _ 0 0 _) as [k|] eqn:E; [|congruence].
    destruct (firstIncluded_head _ _ _ _ _ _ E) as (n & seg & rest & _ & _ & ->).
    discriminate. }
  split.
  - destruct (answerAt_cases (playlist l) (manifestStreamTime l now))
      as [(body & Hm & ->) | (_ & ->)]; [left | right; reflexivity].
    exists body. split; [reflexivity | exact (NE body Hm)].
  - intros Hnow Hb.
    assert (T0 : (0 <= manifestStreamTime l now)%Q).
    { unfold manifestStreamTime. destruct (Float64.ltb _ _); [lra|].
      unfold Time.Seconds, Time.Since, Qle. simpl. lia. }
    destruct (manifestAt_computed (playlist l) (manifestStreamTime l now) P T0
                (or_introl Hb)) as [body Hm].
    exists body. unfold answerAt. rewrite Hm.
    split; [reflexivity | exact (NE body Hm)].
Qed.

Lemma X11_manifest_never_empty_witness :
  duration handler3 = totalDuration (Segments (playlist handler3))
  /\ positive (Segments (playlist handler3))
  /\ Segments (playlist handler3) <> []
  /\ (0 < TargetDuration (playlist handler3))%Q
  /\ startTime handler3 <= 21000000000
  /\ (manifestStreamTime handler3 21000000000%Z + futureTime
      < totalDuration (Segments (playlist handler3)))%Q
  /\ exists body,
       snd (ServeManifest handler3 21000000000 21000000000) = ManifestOK body
       /\ Segments body <> [].
Proof.
  assert (A : duration handler3 = totalDuration (Segments (playlist handler3)))
    by reflexivity.
  assert (P : positive (Segments (playlist handler3)))
    by (simpl; unfold positive, segs3; repeat constructor).
  assert (N : Segments (playlist handler3) <> []) by discriminate.
  assert (T : (0 < TargetDuration (playlist handler3))%Q) by reflexivity.
  assert (S : startTime handler3 <= 21000000000) by (simpl; lia).
  assert (B : (manifestStreamTime handler3 21000000000%Z + futureTime
               < totalDuration (Segments (playlist handler3)))%Q) by reflexivity.
  repeat (split; [assumption|]).
  destruct (X11_manifest_never_empty handler3 21000000000 21000000000 A P N T)
    as [_ H].
  exact (H S B).
Defined.

(** X12: the segment that is playing is in the window.  With positive
    durations and a target duration that is not negative, if the stream
    time [t] falls in the segment of index [k]
    ([startOffset k <= t < startOffset k + duration]) and the loop breaks
    ([t + 5 < totalDuration]) or the slice has no nil slot, then a manifest
    is computed, [k] lies in the run [s .. v-1] of the window, and the
    manifest lists the segment, at position [k - s], as long as fewer than
    ten segments of the run come before it. *)
Theorem X12_playing_segment_is_in_the_window
  (pl : MediaPlaylist) (t : Q) (k : nat) (seg : MediaSegment) :
  positive (Segments pl) -> (0 <= TargetDuration pl)%Q ->
  nth_error (Segments pl) k = Some seg ->
  (Spec.startOffset (Segments pl) k <= t)%Q ->
  (t < Spec.startOffset (Segments pl) k + Duration seg)%Q ->
  (t + futureTime < totalDuration (Segments pl))%Q \/ nilSlots pl = 0%nat ->
  exists (body : MediaPlaylist) (v s : nat),
    manifestAt pl t = Some body
    /\ (s <= k < v)%nat /\ (v <= List.length (Segments pl))%nat
    /\ Spec.window (TargetDuration pl) t 0%Q (Segments pl)
       = skipn s (firstn v (Segments pl))
    /\ ((k < s + 10)%nat -> nth_error (Segments body) (k - s) = Some seg).
Proof.
  intros P Htd Hn Hlo Hhi Hb.
  assert (T0 : (0 <= t)%Q).
  { pose proof (advance_firstn_le (Segments pl) 0%Q k P) as A.
    unfold Spec.startOffset in Hlo. lra. }
  destruct (manifestAt_computed pl t P T0 Hb) as [body Hm].
  destruct (window_run (TargetDuration pl) t (Segments pl) 0%Q P)
    as (v & s & Hle & Hw & Hskip & Hin & Hvis & Hbrk).
  rewrite <- (cursorAt_startOffset _ _ _ Hn) in Hhi. unfold Spec.cursorAt in Hhi.
  assert (Hk : (k < List.length (Segments pl))%nat)
    by (apply nth_error_Some; congruence).
  assert (Kv : (k < v)%nat).
  { destruct (Nat.lt_ge_cases k v) as [L | L]; [exact L | exfalso].
    destruct Hbrk as (j & -> & Hj); [lia|].
    pose proof (startOffset_mono (Segments pl) (S j) k P L) as M.
    unfold Spec.startOffset in M, Hlo. lra. }
  assert (Sk : (s <= k)%nat).
  { destruct (Nat.le_gt_cases s k) as [L | L]; [exact L | exfalso].
    specialize (Hskip k L). lra. }
  exists body, v, s.
  split; [exact Hm | split; [lia | split; [lia | split; [exact Hw|]]]].
  intro K10. rewrite (manifestAt_Segments _ _ _ Hm), Hw.
  rewrite nth_error_firstn.
  replace (k - s <? 10)%nat with true by (symmetry; apply Nat.ltb_lt; lia).
  rewrite nth_error_skipn, nth_error_firstn.
  replace (s + (k - s))%nat with k by lia.
  replace (k <? v)%nat with true by (symmetry; apply Nat.ltb_lt; lia).
  exact Hn.
Qed.

Lemma X12_playing_segment_is_in_the_window_witness :
  positive (Segments playlist3short) /\ (0 <= TargetDuration playlist3short)%Q
  /\ (Spec.startOffset (Segments playlist3short) 1 <= 14)%Q
  /\ (14 < Spec.startOffset (Segments playlist3short) 1
           + Duration (mkSegment "seg001.ts" 10%Q))%Q
  /\ ((14 + futureTime < totalDuration (Segments playlist3short))%Q
      \/ nilSlots playlist3short = 0%nat)
  /\ exists (body : MediaPlaylist) (v s : nat),
       manifestAt playlist3short 14%Q = Some body
       /\ (s <= 1 < v)%nat /\ (v <= List.length (Segments playlist3short))%nat
       /\ Spec.window (TargetDuration playlist3short) 14%Q 0%Q (Segments playlist3short)
          = skipn s (firstn v (Segments playlist3short))
       /\ ((1 < s + 10)%nat ->
           nth_error (Segments body) (1 - s) = Some (mkSegment "seg001.ts" 10%Q)).
Proof.
  assert (P : positive (Segments playlist3short))
    by (simpl; unfold positive, segs3; repeat constructor).
  assert (T : (0 <= TargetDuration playlist3short)%Q) by (vm_compute; discriminate).
  assert (A : (Spec.startOffset (Segments playlist3short) 1 <= 14)%Q)
    by (vm_compute; discriminate).
  assert (B : (14 < Spec.startOffset (Segments playlist3short) 1
                    + Duration (mkSegment "seg001.ts" 10%Q))%Q) by reflexivity.
  assert (C : (14 + futureTime < totalDuration (Segments playlist3short))%Q
              \/ nilSlots playlist3short = 0%nat) by (left; reflexivity).
  repeat (split; [assumption|]).
  exact (X12_playing_segment_is_in_the_window playlist3short 14%Q 1
           (mkSegment "seg001.ts" 10%Q) P T eq_refl A B C).
Defined.

(** ** Manifest and gate together *)

Lemma EqualFold_refl (s : string) : Strings.EqualFold s s = true.
Proof. apply EqualFold_lowercase. reflexivity. Qed.

Lemma In_firstn_nth_error {A} (l : list A) (v : nat) (x : A) :
  In x (firstn v l) -> exists j, (j < v)%nat /\ nth_error l j = Some x.
Proof.
  intro I. apply In_nth_error in I. destruct I as [j Hj].
  rewrite nth_error_firstn in Hj.
  destruct (j <? v)%nat eqn:L; [|discriminate].
  apply Nat.ltb_lt in L. exists j. auto.
Qed.

Lemma In_skipn {A} (l : list A) : forall n x, In x (skipn n l) -> In x l.
Proof.
  induction l as [|a l IH]; intros [|n] x; simpl; auto.
  intro H. right. eapply IH; eauto.
Qed.

Lemma In_firstn {A} (l : list A) : forall n x, In x (firstn n l) -> In x l.
Proof.
  induction l as [|a l IH]; intros [|n] x; simpl; try tauto.
  intros [H | H]; [left; exact H | right; eapply IH; eauto].
Qed.

(** X13: a client that requests a segment of the manifest it was given, at
    the stream time [t] of that manifest or later, is held back for five
    seconds at most: the URI resolves to a segment of the playlist whose
    start offset is at most [t + 5], and the gate passes it at once or
    sleeps a whole number of seconds between 0 and 5. *)
Theorem X13_listed_segment_waits_five_seconds_at_most
  (pl body : MediaPlaylist) (t t' : Q) (seg : MediaSegment) :
  positive (Segments pl) -> (0 <= t)%Q -> (t <= t')%Q ->
  manifestAt pl t = Some body ->
  In seg (Segments body) ->
  exists k seg',
    findSegment (slots pl) (URI seg) 0%Q
    = Some (Some seg', Spec.startOffset (Segments pl) k)
    /\ (Spec.startOffset (Segments pl) k <= t + futureTime)%Q
    /\ (fst (gate (Spec.startOffset (Segments pl) k) t') = None
        \/ exists n, fst (gate (Spec.startOffset (Segments pl) k) t')
                     = Some (n * Time.Second)
                     /\ 0 <= n <= 5).
Proof.
  intros P Ht Htt' Hm I.
  destruct (window_run (TargetDuration pl) t (Segments pl) 0%Q P)
    as (v & s & Hle & Hw & _ & _ & Hvis & _).
  rewrite (manifestAt_Segments _ _ _ Hm), Hw in I.
  apply In_firstn, In_skipn, In_firstn_nth_error in I.
  destruct I as (j & Hj & Hn).
  destruct (Spec.firstMatch (URI seg) (Segments pl)) as [k|] eqn:M.
  - destruct (proj1 (firstMatch_Some _ _ _) M) as [(seg' & Hk & _) F].
    assert (Kj : (k <= j)%nat).
    { destruct (Nat.le_gt_cases k j) as [L | L]; [exact L | exfalso].
      rewrite Forall_forall in F.
      assert (E : Strings.EqualFold (URI seg) (URI seg) = false).
      { apply F. apply nth_error_In with (n := j).
        rewrite nth_error_firstn.
        replace (j <? k)%nat with true by (symmetry; apply Nat.ltb_lt; exact L).
        exact Hn. }
      rewrite EqualFold_refl in E. discriminate. }
    assert (B : (Spec.startOffset (Segments pl) k <= t + futureTime)%Q).
    { unfold futureTime.
      pose proof (startOffset_mono (Segments pl) k j P Kj) as Mo.
      assert (Bj : (Spec.startOffset (Segments pl) j <= t + 5)%Q).
      { destruct j as [|j]; [unfold Spec.startOffset; simpl; lra|].
        unfold Spec.startOffset. apply Hvis. exact Hj. }
      lra. }
    exists k, seg'. split; [|split; [exact B|]].
    + unfold slots. rewrite findSegment_firstMatch, M, Hk. reflexivity.
    + unfold futureTime in B.
      destruct (Qlt_le_dec t' (Spec.startOffset (Segments pl) k)) as [L | L].
      * right. rewrite gate_future by lra. cbn [fst].
        exists (Qfloor (Spec.startOffset (Segments pl) k - t')).
        split; [reflexivity|]. split.
        -- change 0 with (Qfloor 0). apply Qfloor_resp_le. lra.
        -- change 5 with (Qfloor 5). apply Qfloor_resp_le. lra.
      * left. rewrite gate_past by exact L. reflexivity.
  - exfalso. apply firstMatch_None in M. rewrite Forall_forall in M.
    assert (E : Strings.EqualFold (URI seg) (URI seg) = false).
    { apply M. eapply nth_error_In; eauto. }
    rewrite EqualFold_refl in E. discriminate.
Qed.

Lemma X13_listed_segment_waits_five_seconds_at_most_witness :
  positive (Segments playlist3) /\ (0 <= 6)%Q /\ (6 <= 7)%Q
  /\ manifestAt playlist3 6%Q = Some (mkPlaylist 10%Q 0 (firstn 2 segs3) 10 10)
  /\ In (mkSegment "seg001.ts" 10%Q)
        (Segments (mkPlaylist 10%Q 0 (firstn 2 segs3) 10 10))
  /\ exists k seg',
       findSegment (slots playlist3) (URI (mkSegment "seg001.ts" 10%Q)) 0%Q
       = Some (Some seg', Spec.startOffset (Segments playlist3) k)
       /\ (Spec.startOffset (Segments playlist3) k <= 6 + futureTime)%Q
       /\ (fst (gate (Spec.startOffset (Segments playlist3) k) 7%Q) = None
           \/ exists n, fst (gate (Spec.startOffset (Segments playlist3) k) 7%Q)
                        = Some (n * Time.Second)
                        /\ 0 <= n <= 5).
Proof.
  assert (P : positive (Segments playlist3))
    by (simpl; unfold positive, segs3; repeat constructor).
  assert (A : (0 <= 6)%Q) by (vm_compute; discriminate).
  assert (B : (6 <= 7)%Q) by (vm_compute; discriminate).
  assert (M : manifestAt playlist3 6%Q
              = Some (mkPlaylist 10%Q 0 (firstn 2 segs3) 10 10)) by reflexivity.
  assert (I : In (mkSegment "seg001.ts" 10%Q)
                (Segments (mkPlaylist 10%Q 0 (firstn 2 segs3) 10 10)))
    by (simpl; right; left; reflexivity).
  repeat (split; [assumption|]).
  exact (X13_listed_segment_waits_five_seconds_at_most playlist3
           (mkPlaylist 10%Q 0 (firstn 2 segs3) 10 10) 6%Q 7%Q
           (mkSegment "seg001.ts" 10%Q) P A B M I).
Defined.

(** ** The start of the program *)

(** The sum [main] computes over the slots, skipping the nil ones, is the
    sum of the durations of the segments. *)
Lemma sumDurations_slots (p : MediaPlaylist) :
  sumDurations (slots p) = totalDuration (Segments p).
Proof.
  unfold sumDurations, totalDuration, slots.
  rewrite fold_left_app.
  assert (N : forall n c,
             fold_left (fun d (segment : option MediaSegment) =>
                          match segment with
                          | Some segment => (d + Duration segment)%Q
                          | None => d
                          end) (repeat None n) c = c).
  { induction n as [|n IH]; intro c; simpl; [reflexivity | apply IH]. }
  rewrite N. generalize 0%Q.
  induction (Segments p) as [|seg rest IH]; intro c; simpl; [reflexivity | apply IH].
Qed.

Section Startup.

Variable path_Dir : string -> string.
Variable filepath_Dir : string -> string.
Variable os_Open : string -> option File.
Variable DecodeFrom : File -> option Decoded.

(** X14: the usage line does not stop [main].  Without an argument it
    prints the line and panics on [args[0]]; with two arguments or more it
    prints the line and goes on as with the first argument alone: the same
    end, the same handler, the same lines after the usage line. *)
Theorem X14_usage_line_does_not_stop_main
  (arg0 arg1 : string) (rest : list string) (now : Time.Time) :
  main path_Dir filepath_Dir os_Open DecodeFrom [] now = IndexOutOfRange [Usage]
  /\ match main path_Dir filepath_Dir os_Open DecodeFrom [arg0] now,
           main path_Dir filepath_Dir os_Open DecodeFrom (arg0 :: arg1 :: rest) now
     with
     | Return out, Return out' => out' = Usage :: out
     | ListenAndServe out l, ListenAndServe out' l' => out' = Usage :: out /\ l' = l
     | _, _ => False
     end.
Proof.
  split; [reflexivity|].
  unfold main. cbn [List.length Nat.eqb app].
  destruct (os_Open arg0) as [f|]; [|reflexivity].
  destruct (DecodeFrom f) as [[|mediapl]|]; try reflexivity.
  split; reflexivity.
Qed.

(** X15: [main] reaches [http.ListenAndServe] exactly when it has a first
    argument, the file of that name opens and decodes, in strict mode, to a
    media playlist; the handler then starts its clock at the instant of its
    construction, with the sum of the durations as [duration] and the
    directory of the argument as [baseDir]. *)
Theorem X15_main_serves_media_playlists_only
  (args : list string) (now : Time.Time) :
  (forall out l,
     main path_Dir filepath_Dir os_Open DecodeFrom args now = ListenAndServe out l ->
     exists arg0 rest f mediapl,
       args = arg0 :: rest /\ os_Open arg0 = Some f
       /\ DecodeFrom f = Some (MEDIA mediapl)
       /\ startTime l = now /\ playlist l = mediapl
       /\ duration l = totalDuration (Segments mediapl)
       /\ baseDir l = path_Dir arg0)
  /\ (forall arg0 rest f mediapl,
        args = arg0 :: rest -> os_Open arg0 = Some f ->
        DecodeFrom f = Some (MEDIA mediapl) ->
        exists out,
          main path_Dir filepath_Dir os_Open DecodeFrom args now
          = ListenAndServe out (newHandler mediapl (path_Dir arg0) now)).
Proof.
  split.
  - intros out l. unfold main.
    destruct args as [|arg0 rest]; [discriminate|].
    destruct (os_Open arg0) as [f|] eqn:Ho; [|discriminate].
    destruct (DecodeFrom f) as [[|mediapl]|] eqn:Hd; try discriminate.
    intro H. injection H as _ <-.
    exists arg0, rest, f, mediapl. repeat split; auto.
    apply sumDurations_slots.
  - intros arg0 rest f mediapl -> Ho Hd. unfold main. rewrite Ho, Hd.
    eexists. reflexivity.
Qed.

End Startup.

Lemma X15_main_serves_media_playlists_only_witness :
  let dir := fun _ : string => "media"%string in
  let open := fun name : string =>
                if String.eqb name "media/list.m3u8"
                then Some (mkFile (Some 100) []) else None in
  let decode := fun _ : File => Some (MEDIA playlist3) in
  exists out,
    main dir dir open decode ["media/list.m3u8"%string] 0
    = ListenAndServe out handler3.
Proof.
  intros dir open decode.
  destruct (X15_main_serves_media_playlists_only dir dir open decode
              ["media/list.m3u8"%string] 0) as [_ H].
  exact (H "media/list.m3u8"%string [] (mkFile (Some 100) []) playlist3
           eq_refl eq_refl eq_refl).
Defined.

(** ** The nil slots *)

(** X16: when [ServeManifest] panics.  With positive durations and a clock
    that is not before [startTime], the request is answered by the panic of
    a nil slot, and not by a manifest, exactly when the end of the playlist
    is within five seconds of the stream time the window is computed for
    ([totalDuration <= t + 5]) and the slice has a nil slot. *)
Theorem X16_manifest_panics_near_the_end
  (l : FakeLHLSManifestHandler) (now now' : Time.Time) :
  positive (Segments (playlist l)) -> startTime l <= now ->
  snd (ServeManifest l now now') = Panic
  <-> (totalDuration (Segments (playlist l))
       <= manifestStreamTime l now + futureTime)%Q
      /\ nilSlots (playlist l) <> 0%nat.
Proof.
  intros P Hnow. rewrite ServeManifest_unfold. cbn [snd].
  assert (T0 : (0 <= manifestStreamTime l now)%Q).
  { unfold manifestStreamTime. destruct (Float64.ltb _ _); [lra|].
    unfold Time.Seconds, Time.Since, Qle. simpl. lia. }
  assert (R : runsOut (manifestStreamTime l now) 0 (Segments (playlist l)) = true
              <-> (totalDuration (Segments (playlist l))
                   <= manifestStreamTime l now + futureTime)%Q).
  { apply runsOut_total; [exact P | unfold futureTime; lra]. }
  rewrite <- R, <- manifestAt_None.
  unfold answerAt. destruct (manifestAt _ _); split; congruence.
Qed.

Lemma X16_manifest_panics_near_the_end_witness :
  positive (Segments (playlist handler3)) /\ startTime handler3 <= 26000000000
  /\ snd (ServeManifest handler3 26000000000 26000000000) = Panic.
Proof.
  assert (P : positive (Segments (playlist handler3)))
    by (simpl; unfold positive, segs3; repeat constructor).
  assert (S : startTime handler3 <= 26000000000) by (simpl; lia).
  split; [exact P | split; [exact S|]].
  apply (X16_manifest_panics_near_the_end handler3 26000000000 26000000000 P S).
  split; [vm_compute; discriminate | vm_compute; discriminate].
Defined.

(** X17: where manifests are computed the sequence number does not go
    back.  For a target duration that is not negative and stream times
    [0 <= t1 < t2 < totalDuration] at which the loop computes a window, the
    sequence number for [t2] is at least the one for [t1], and neither is
    the sentinel; the windows are computed when [t2 + 5 < totalDuration]
    and the durations are positive. *)
Theorem X17_sequence_monotone_where_computed
  (pl : MediaPlaylist) (t1 t2 : Q) :
  (0 <= TargetDuration pl)%Q ->
  (0 <= t1)%Q -> (t1 < t2)%Q -> (t2 < totalDuration (Segments pl))%Q ->
  (forall w1 w2,
     windowAt pl t1 = Some w1 -> windowAt pl t2 = Some w2 ->
     0 <= sequence w1 <= sequence w2)
  /\ (positive (Segments pl) ->
      (t2 + futureTime < totalDuration (Segments pl))%Q ->
      exists w1 w2,
        windowAt pl t1 = Some w1 /\ windowAt pl t2 = Some w2
        /\ 0 <= sequence w1 <= sequence w2).
Proof.
  intros Htd H1 H12 H2.
  assert (Mono : forall w1 w2,
             windowAt pl t1 = Some w1 -> windowAt pl t2 = Some w2 ->
             0 <= sequence w1 <= sequence w2).
  { intros w1 w2 E1 E2.
    rewrite (windowAt_sequence _ _ _ E1), (windowAt_sequence _ _ _ E2).
    destruct (Spec.firstIncluded (TargetDuration pl) t2 0 0 (Segments pl))
      as [k2|] eqn:F2.
    - destruct (firstIncluded_mono _ Htd t1 t2 _ _ _ _ H12 F2) as (k1 & -> & Hk).
      lia.
    - exfalso. revert F2. apply firstIncluded_Some; [exact Htd | lra | exact H2]. }
  split; [exact Mono|].
  intros P Hb.
  destruct (manifestAt_computed pl t1 P H1 ltac:(left; lra)) as [b1 E1].
  destruct (manifestAt_computed pl t2 P ltac:(lra) (or_introl Hb)) as [b2 E2].
  unfold manifestAt in E1, E2.
  destruct (windowAt pl t1) as [w1|] eqn:W1; [|discriminate].
  destruct (windowAt pl t2) as [w2|] eqn:W2; [|discriminate].
  exists w1, w2. split; [reflexivity | split; [reflexivity|]].
  apply Mono; reflexivity.
Qed.

Lemma X17_sequence_monotone_where_computed_witness :
  (0 <= TargetDuration playlist3short)%Q
  /\ (0 <= 3)%Q /\ (3 < 24)%Q /\ (24 < totalDuration (Segments playlist3short))%Q
  /\ positive (Segments playlist3short)
  /\ (24 + futureTime < totalDuration (Segments playlist3short))%Q
  /\ exists w1 w2,
       windowAt playlist3short 3%Q = Some w1 /\ windowAt playlist3short 24%Q = Some w2
       /\ 0 <= sequence w1 <= sequence w2.
Proof.
  assert (A : (0 <= TargetDuration playlist3short)%Q) by (vm_compute; discriminate).
  assert (B : (0 <= 3)%Q) by (vm_compute; discriminate).
  assert (C : (3 < 24)%Q) by reflexivity.
  assert (D : (24 < totalDuration (Segments playlist3short))%Q) by reflexivity.
  assert (P : positive (Segments playlist3short))
    by (simpl; unfold positive, segs3; repeat constructor).
  assert (E : (24 + futureTime < totalDuration (Segments playlist3short))%Q)
    by reflexivity.
  repeat (split; [assumption|]).
  destruct (X17_sequence_monotone_where_computed playlist3short 3%Q 24%Q A B C D)
    as [_ H].
  exact (H P E).
Defined.
